(** * BurnAI data processing (backend/process_data.py)

    A shallow embedding of the data-fusion and scoring pipeline:
    [get_latest_file], the three loaders, [assign_to_county],
    [process_data_by_county], [calculate_suitability_score] and
    [save_processed_data].

    Numbers.  Python and numpy floats are modelled by exact rationals
    extended with a not-a-number value ([Fin q] / [NaN]): rounding and
    infinities are not modelled, the propagation of NaN and the way the
    builtin [min] and [max] treat it are.  Numeric results are compared
    with [==] on [Q].

    Globals.  The module-level table [COUNTIES] is passed to the functions
    that read it as an explicit [registry] argument, so that statements can
    range over other tables as well; the source's own table is [COUNTIES]. *)

From Stdlib Require Import QArith Qround Lqa Lia ZArith List Ascii String Bool.
Import ListNotations.

Set Warnings "-register-all".

Open Scope Q_scope.

(** ** Python numbers *)

Inductive float : Type :=
| Fin (q : Q)
| NaN.

Definition Qltb (x y : Q) : bool := negb (Qle_bool y x).

Definition fadd (x y : float) : float :=
  match x, y with Fin a, Fin b => Fin (a + b) | _, _ => NaN end.

Definition fsub (x y : float) : float :=
  match x, y with Fin a, Fin b => Fin (a - b) | _, _ => NaN end.

Definition fmul (x y : float) : float :=
  match x, y with Fin a, Fin b => Fin (a * b) | _, _ => NaN end.

(** Every divisor in the source is a non-zero literal. *)
Definition fdiv (x y : float) : float :=
  match x, y with Fin a, Fin b => Fin (a / b) | _, _ => NaN end.

(** [x < y]; any comparison with NaN is false. *)
Definition flt (x y : float) : bool :=
  match x, y with Fin a, Fin b => Qltb a b | _, _ => false end.

(** [x <= y]. *)
Definition fle (x y : float) : bool :=
  match x, y with Fin a, Fin b => Qle_bool a b | _, _ => false end.

(** The builtin [min(a, b)]: [b] replaces [a] only when [b < a]. *)
Definition py_min (a b : float) : float := if flt b a then b else a.

(** The builtin [max(a, b)]: [b] replaces [a] only when [b > a]. *)
Definition py_max (a b : float) : float := if flt a b then b else a.

Declare Scope float_scope.
Delimit Scope float_scope with float.
Bind Scope float_scope with float.
Infix "+" := fadd : float_scope.
Infix "-" := fsub : float_scope.
Infix "*" := fmul : float_scope.
Infix "/" := fdiv : float_scope.

(** Numeric equality and order of results, as propositions. *)
Definition feq (x y : float) : Prop :=
  match x, y with
  | Fin a, Fin b => a == b
  | NaN, NaN => True
  | _, _ => False
  end.



Definition in_unit_interval (x : float) : Prop :=
  match x with Fin q => 0 <= q <= 1 | NaN => False end.

(** ** The scoring model *)

(** Element-wise product of two arrays of the same length. *)
Fixpoint np_mul (xs ys : list float) : list float :=
  match xs, ys with
  | x :: xs', y :: ys' => (x * y)%float :: np_mul xs' ys'
  | _, _ => []
  end.

(** [np.sum]: the elements are added left to right. *)
Definition np_sum (xs : list float) : float :=
  fold_left fadd xs (Fin 0).

Definition weights : list float :=
  [ Fin (-0.2); Fin (-0.1); Fin (-0.15); Fin 0.25; Fin (-0.2); Fin 0.1 ].

Definition normalized_factors
    (recent_fires avg_frp temperature humidity wind_speed ndvi : float)
    : list float :=
  [ py_min (Fin 1) (recent_fires / Fin 20);
    py_min (Fin 1) (avg_frp / Fin 1000);
    ((temperature - Fin 50) / Fin 50)%float;
    (humidity / Fin 100)%float;
    (wind_speed / Fin 20)%float;
    ndvi ].

Definition weighted_sum
    (recent_fires avg_frp temperature humidity wind_speed ndvi : float)
    : float :=
  np_sum (np_mul
            (normalized_factors recent_fires avg_frp temperature humidity
                                wind_speed ndvi)
            weights).

Definition calculate_suitability_score
    (recent_fires avg_frp temperature humidity wind_speed ndvi : float)
    : float :=
  let base_score := Fin 50 in
  let score :=
    (base_score
     + weighted_sum recent_fires avg_frp temperature humidity wind_speed ndvi
       * Fin 50)%float in
  py_max (Fin 0) (py_min (Fin 100) score).

(** The six arguments of the scoring model, when all of them are numbers. *)
Record Summary : Type := {
  recentFireCount : Q;
  meanFrp : Q;
  meanTemperature : Q;
  meanHumidity : Q;
  meanWindSpeed : Q;
  meanNdvi : Q
}.

Definition factors_of (s : Summary) : list float :=
  normalized_factors (Fin (recentFireCount s)) (Fin (meanFrp s))
    (Fin (meanTemperature s)) (Fin (meanHumidity s))
    (Fin (meanWindSpeed s)) (Fin (meanNdvi s)).


Definition suitability_of (s : Summary) : float :=
  calculate_suitability_score (Fin (recentFireCount s)) (Fin (meanFrp s))
    (Fin (meanTemperature s)) (Fin (meanHumidity s))
    (Fin (meanWindSpeed s)) (Fin (meanNdvi s)).

Close Scope Q_scope.
Open Scope string_scope.
Open Scope list_scope.

(** ** Exceptions *)

Inductive exn : Type :=
| KeyError (key : string)
| ValueError
| TypeError.

Inductive result (A : Type) : Type :=
| Ok (a : A)
| Raise (e : exn).

Arguments Ok {A} a.
Arguments Raise {A} e.

Definition bind {A B : Type} (m : result A) (k : A -> result B) : result B :=
  match m with
  | Ok a => k a
  | Raise e => Raise e
  end.

Notation "x <- m ;; k" := (bind m (fun x => k))
  (at level 61, m at next level, right associativity).

(** [int(x)]: truncation toward zero; [int(nan)] raises [ValueError]. *)
Definition py_int (x : float) : result Z :=
  match x with
  | Fin q => Ok (Z.quot (Qnum q) (Z.pos (Qden q)))
  | NaN => Raise ValueError
  end.

Definition of_int (z : Z) : float := Fin (inject_Z z).

(** ** Python values and dictionaries

    A dictionary keeps its keys in insertion order; assigning to a key that
    is present keeps the key's position. *)

Inductive piece : Type :=
| Lit (s : string)
| IntPiece (z : Z)
| NumPiece (x : float).

Inductive value : Type :=
| VStr (s : string)
| VFmt (ps : list piece)            (* an f-string, kept as its pieces *)
| VInt (z : Z)
| VNum (x : float)
| VDict (d : list (string * value)).

Definition dict (V : Type) : Type := list (string * V).

Fixpoint dict_get {V : Type} (k : string) (d : dict V) : option V :=
  match d with
  | [] => None
  | (k', v) :: d' => if k =? k' then Some v else dict_get k d'
  end.

Definition dict_mem {V : Type} (k : string) (d : dict V) : bool :=
  match dict_get k d with Some _ => true | None => false end.

Fixpoint dict_set {V : Type} (k : string) (v : V) (d : dict V) : dict V :=
  match d with
  | [] => [(k, v)]
  | (k', v') :: d' =>
      if k =? k' then (k, v) :: d' else (k', v') :: dict_set k v d'
  end.

Fixpoint dict_del {V : Type} (k : string) (d : dict V) : dict V :=
  match d with
  | [] => []
  | (k', v') :: d' => if k =? k' then d' else (k', v') :: dict_del k d'
  end.

Definition dict_keys {V : Type} (d : dict V) : list string := map fst d.

Definition dict_values {V : Type} (d : dict V) : list V := map snd d.

Fixpoint mem_string (s : string) (l : list string) : bool :=
  match l with
  | [] => false
  | s' :: l' => (s =? s') || mem_string s l'
  end.

(** ** Data frames

    A frame read from a CSV file: a header and rows of numeric cells, a
    missing cell being NaN.  Only numeric columns are represented. *)

Record DataFrame : Type := {
  columns : list string;
  rows : list (list float)
}.

Fixpoint index_of (c : string) (cols : list string) : option nat :=
  match cols with
  | [] => None
  | c' :: cols' =>
      if c =? c' then Some O
      else match index_of c cols' with
           | Some i => Some (S i)
           | None => None
           end
  end.

(** The cell of row [r] in column [c], NaN when the row or the header has
    no such cell. *)
Definition cell (cols : list string) (c : string) (r : list float) : float :=
  match index_of c cols with
  | Some i => nth i r NaN
  | None => NaN
  end.

(** [df[c]]: raises [KeyError] when the frame has no column [c]. *)
Definition series (df : DataFrame) (c : string) : result (list float) :=
  match index_of c (columns df) with
  | Some i => Ok (map (fun r => nth i r NaN) (rows df))
  | None => Raise (KeyError c)
  end.

Fixpoint present (xs : list float) : list Q :=
  match xs with
  | [] => []
  | Fin q :: xs' => q :: present xs'
  | NaN :: xs' => present xs'
  end.

Definition Qsum (qs : list Q) : Q := fold_right Qplus 0%Q qs.

Definition Qmean (qs : list Q) : Q :=
  (Qsum qs / inject_Z (Z.of_nat (List.length qs)))%Q.

(** [Series.mean()]: the mean of the cells that are present, NaN when there
    is none. *)
Definition series_mean (xs : list float) : float :=
  match present xs with
  | [] => NaN
  | qs => Fin (Qmean qs)
  end.

Definition ge_mask (xs : list float) (c : Q) : list bool :=
  map (fun x => fle (Fin c) x) xs.

Definition le_mask (xs : list float) (c : Q) : list bool :=
  map (fun x => fle x (Fin c)) xs.

Fixpoint and_mask (m1 m2 : list bool) : list bool :=
  match m1, m2 with
  | b1 :: m1', b2 :: m2' => (b1 && b2) :: and_mask m1' m2'
  | _, _ => []
  end.

Fixpoint keep {A : Type} (xs : list A) (mask : list bool) : list A :=
  match xs, mask with
  | x :: xs', b :: mask' => if b then x :: keep xs' mask' else keep xs' mask'
  | _, _ => []
  end.

(** [df[mask]] *)
Definition df_filter (df : DataFrame) (mask : list bool) : DataFrame :=
  {| columns := columns df; rows := keep (rows df) mask |}.

(** [len(df)] *)
Definition df_len (df : DataFrame) : Z := Z.of_nat (List.length (rows df)).

(** [df.empty]: some axis has length zero. *)
Definition df_empty (df : DataFrame) : bool :=
  match rows df, columns df with
  | [], _ => true
  | _, [] => true
  | _, _ => false
  end.

(** [pd.concat(dfs, ignore_index=True)]: the columns are the union of the
    frames' columns in order of first appearance; a row has NaN in the
    columns its own frame lacks. *)
Definition add_columns (acc cols : list string) : list string :=
  fold_left (fun a c => if mem_string c a then a else a ++ [c]) cols acc.

Definition union_columns (dfs : list DataFrame) : list string :=
  fold_left (fun acc df => add_columns acc (columns df)) dfs [].

Definition reindex (cols : list string) (df : DataFrame) : list (list float) :=
  map (fun r => map (fun c => cell (columns df) c r) cols) (rows df).

Definition pd_concat (dfs : list DataFrame) : DataFrame :=
  let cols := union_columns dfs in
  {| columns := cols; rows := flat_map (reindex cols) dfs |}.

(** ** The county table *)

Record Bounds : Type := {
  minlat : Q;
  maxlat : Q;
  minlon : Q;
  maxlon : Q
}.

Record CountyInfo : Type := {
  county_id : string;
  bounds : Bounds
}.

(** County name to county information, in the order of the table. *)
Definition Registry : Type := dict CountyInfo.

Definition COUNTIES : Registry :=
  [ ("San Francisco",
     {| county_id := "sf";
        bounds := {| minlat := 37.7%Q; maxlat := 37.8%Q;
                     minlon := (-122.5)%Q; maxlon := (-122.3)%Q |} |});
    ("Los Angeles",
     {| county_id := "la";
        bounds := {| minlat := 33.7%Q; maxlat := 34.8%Q;
                     minlon := (-118.7)%Q; maxlon := (-117.7)%Q |} |}) ].

(** [minlat <= lat <= maxlat and minlon <= lon <= maxlon] *)
Definition within (b : Bounds) (lat lon : float) : bool :=
  fle (Fin (minlat b)) lat && fle lat (Fin (maxlat b))
  && (fle (Fin (minlon b)) lon && fle lon (Fin (maxlon b))).

Fixpoint assign_to_county (registry : Registry) (lat lon : float)
    : option string :=
  match registry with
  | [] => None
  | (county_name, county_info) :: rest =>
      if within (bounds county_info) lat lon
      then Some (county_id county_info)
      else assign_to_county rest lat lon
  end.

(** ** Source files *)

(** A directory entry: its creation time as [os.path.getctime] reports it
    and what [pd.read_csv] makes of it ([None] when reading raises). *)
Record File : Type := {
  path : string;
  ctime : Q;
  content : option DataFrame
}.

(** Directory name to the entries of the directory, in listing order. *)
Definition FileSystem : Type := string -> list File.

(** [max(files, key=...)]: the first entry with the greatest key. *)
Fixpoint max_by_key (key : File -> Q) (best : File) (rest : list File) : File :=
  match rest with
  | [] => best
  | f :: rest' =>
      if Qltb (key best) (key f) then max_by_key key f rest'
      else max_by_key key best rest'
  end.

(** A file-name matcher for patterns whose only wildcard is the star. *)
Fixpoint star_match (pattern name : string) : bool :=
  match pattern with
  | EmptyString => match name with EmptyString => true | _ => false end
  | String c pattern' =>
      if Ascii.eqb c "*"%char then
        (fix skip (n : string) : bool :=
           star_match pattern' n
           || match n with
              | EmptyString => false
              | String _ n' => skip n'
              end) name
      else
        match name with
        | EmptyString => false
        | String c' name' => Ascii.eqb c c' && star_match pattern' name'
        end
  end.

(** A file written by [DataFrame.to_csv]: the row dictionaries the frame was
    built from.  The CSV columns are the keys of the rows. *)
Record OutFile : Type := {
  out_path : string;
  out_records : list (dict value)
}.

Definition csv_columns (f : OutFile) : list string :=
  fold_left (fun acc r => add_columns acc (dict_keys r)) (out_records f) [].

(** The three conditional expressions of the county record on
    [suitability_score > 80] and [suitability_score > 60]. *)
Definition risk_level (s : float) : string :=
  if flt (Fin 80) s then "Low"
  else if flt (Fin 60) s then "Moderate"
  else "High".

Definition risk_color (s : float) : string :=
  if flt (Fin 80) s then "green"
  else if flt (Fin 60) s then "yellow"
  else "red".

Definition hazard_level (s : float) : string :=
  if flt (Fin 80) s then "Low"
  else if flt (Fin 60) s then "Medium"
  else "High".

(** ** Aggregation and scoring of one county *)

(** The row mask of [process_data_by_county]: four comparisons on the
    latitude and longitude columns, combined with [&]. *)
Definition fire_mask (fire_df : DataFrame) (b : Bounds) : result (list bool) :=
  lat_ge <- series fire_df "latitude";;
  lat_le <- series fire_df "latitude";;
  lon_ge <- series fire_df "longitude";;
  lon_le <- series fire_df "longitude";;
  Ok (and_mask
        (and_mask
           (and_mask (ge_mask lat_ge (minlat b)) (le_mask lat_le (maxlat b)))
           (ge_mask lon_ge (minlon b)))
        (le_mask lon_le (maxlon b))).

(** [recent_fires] and [avg_frp] of a county. *)
Definition aggregate_fire (fire_df : DataFrame) (b : Bounds)
    : result (Z * float) :=
  mask <- fire_mask fire_df b;;
  let county_fire_df := df_filter fire_df mask in
  let recent_fires := df_len county_fire_df in
  avg_frp <- (if negb (df_empty county_fire_df)
              then (frp <- series county_fire_df "frp";; Ok (series_mean frp))
              else Ok (Fin 0));;
  Ok (recent_fires, avg_frp).

(** [df[c].mean() if c in df.columns else default] *)
Definition column_mean_or (df : DataFrame) (c : string) (default : Q)
    : result float :=
  if mem_string c (columns df)
  then (s <- series df c;; Ok (series_mean s))
  else Ok (Fin default).

Definition county_weather (weather_df : DataFrame) : result (dict value) :=
  temperature <- column_mean_or weather_df "TAVG" 70;;
  humidity <- column_mean_or weather_df "RHAVG" 50;;
  windSpeed <- column_mean_or weather_df "AWND" 5;;
  Ok [ ("temperature", VNum temperature);
       ("humidity", VNum humidity);
       ("windSpeed", VNum windSpeed);
       ("windDirection", VStr "NW") ].

(** [d[k]] for a key holding a number. *)
Definition get_num (d : dict value) (k : string) : result float :=
  match dict_get k d with
  | Some (VNum x) => Ok x
  | Some (VInt z) => Ok (of_int z)
  | Some _ => Raise TypeError
  | None => Raise (KeyError k)
  end.

(** The score and the record of one county, from its aggregates. *)
Definition score_county (county_name : string) (county_info : CountyInfo)
    (recent_fires : Z) (avg_frp : float) (weather : dict value)
    (county_ndvi : float) : result (dict value) :=
  let county_id := county_id county_info in
  let b := bounds county_info in
  temperature <- get_num weather "temperature";;
  humidity <- get_num weather "humidity";;
  windSpeed <- get_num weather "windSpeed";;
  let suitability_score :=
    calculate_suitability_score (of_int recent_fires) avg_frp temperature
      humidity windSpeed county_ndvi in
  let hazard_proximity := hazard_level suitability_score in
  score <- py_int (suitability_score * Fin 0.7);;
  heatMW <- py_int avg_frp;;
  firmsScore <- py_int (Fin 100 - suitability_score * Fin 0.5);;
  historical <- py_int (of_int recent_fires * Fin 0.8);;
  historicalScore <- py_int (Fin 100 - suitability_score * Fin 0.6);;
  suitabilityScore <- py_int suitability_score;;
  Ok [ ("id", VStr county_id);
       ("name", VStr county_name);
       ("coordinates",
        VFmt [ NumPiece (Fin ((minlat b + maxlat b) / 2));
               Lit ", ";
               NumPiece (Fin ((minlon b + maxlon b) / 2)) ]);
       ("score", VInt score);
       ("riskLevel", VStr (risk_level suitability_score));
       ("riskColor", VStr (risk_color suitability_score));
       ("recentFires", VInt recent_fires);
       ("heatMW", VInt heatMW);
       ("firmsScore", VInt firmsScore);
       ("historicalAvg",
        VFmt [ IntPiece (Z.max 1 historical); Lit " fires/week" ]);
       ("historicalScore", VInt historicalScore);
       ("suitabilityScore", VInt suitabilityScore);
       ("weatherConditions", VDict weather);
       ("hazardProximity", VStr hazard_proximity);
       ("firePersonnel", VInt (if county_id =? "sf" then 15 else 12));
       ("equipmentStatus", VStr "Ready");
       ("permitStatus",
        VStr (if county_id =? "sf" then "Approved" else "Pending")) ].

(** One iteration of the loop over the county table. *)
Definition process_county (fire_df weather_df vegetation_df : DataFrame)
    (county_name : string) (county_info : CountyInfo) : result (dict value) :=
  fire <- aggregate_fire fire_df (bounds county_info);;
  let (recent_fires, avg_frp) := fire in
  weather <- county_weather weather_df;;
  county_ndvi <- column_mean_or vegetation_df "ndvi" 0.5;;
  score_county county_name county_info recent_fires avg_frp weather
    county_ndvi.

(** ** Saving *)

(** The flattened copy of a county record: each entry of the
    [weatherConditions] dictionary becomes a [weather_]-prefixed key of the
    copy, and [weatherConditions] is deleted from the copy.  The record
    itself is left as it is.  [None] when iterating raises (the value under
    [weatherConditions] is not a dictionary). *)
Definition flatten (data : dict value) : option (dict value) :=
  let flat_data := data in
  if dict_mem "weatherConditions" flat_data then
    match dict_get "weatherConditions" flat_data with
    | Some (VDict w) =>
        Some (dict_del "weatherConditions"
                (fold_left
                   (fun fd kv =>
                      dict_set ("weather_" ++ fst kv)%string (snd kv) fd)
                   w flat_data))
    | _ => None
    end
  else Some flat_data.

Definition processed_path (county_id : string) : string :=
  ("data/processed/" ++ county_id ++ "_processed.csv")%string.

(** The loop of [save_processed_data] over the counties: the files written,
    and whether the loop ran to its end. *)
Fixpoint save_counties (items : list (string * dict value))
    : list OutFile * bool :=
  match items with
  | [] => ([], true)
  | (county_id, data) :: items' =>
      match flatten data with
      | Some flat_data =>
          let (written, ok) := save_counties items' in
          ({| out_path := processed_path county_id;
              out_records := [flat_data] |} :: written, ok)
      | None => ([], false)
      end
  end.

(** The files written in order, and the function's return value. *)
Definition save_processed_data (county_data : dict (dict value))
    : list OutFile * bool :=
  let (written, ok) := save_counties county_data in
  if ok then
    (written ++ [ {| out_path := "data/processed/all_counties.csv";
                     out_records := dict_values county_data |} ],
     true)
  else (written, false).

(** ** The pipeline *)

Section Pipeline.

(** [fnmatch pattern name]: the matching of file names that [glob] uses. *)
Variable fnmatch : string -> string -> bool.

Variable registry : Registry.

Variable fs : FileSystem.

Definition glob (directory pattern : string) : list File :=
  filter (fun f => fnmatch pattern (path f)) (fs directory).

Definition get_latest_file (directory pattern : string) : option File :=
  match glob directory pattern with
  | [] => None
  | f :: files => Some (max_by_key ctime f files)
  end.

Definition load_fire_data : option DataFrame :=
  match get_latest_file "data/fire" "california_fires_*.csv" with
  | None => None
  | Some latest_file => content latest_file
  end.

Fixpoint read_all (files : list File) : option (list DataFrame) :=
  match files with
  | [] => Some []
  | f :: files' =>
      match content f, read_all files' with
      | Some df, Some dfs => Some (df :: dfs)
      | _, _ => None
      end
  end.

Definition load_weather_data : option DataFrame :=
  match glob "data/weather" "*.csv" with
  | [] => None
  | weather_files =>
      match read_all weather_files with
      | None => None
      | Some [] => None
      | Some dfs => Some (pd_concat dfs)
      end
  end.

Definition load_vegetation_data : option DataFrame :=
  match get_latest_file "data/vegetation" "*_ndvi.csv" with
  | None => None
  | Some latest_file => content latest_file
  end.

(** The loop over the county table, filling [county_data]. *)
Fixpoint process_counties (fire_df weather_df vegetation_df : DataFrame)
    (counties : Registry) (county_data : dict (dict value))
    : result (dict (dict value)) :=
  match counties with
  | [] => Ok county_data
  | (county_name, county_info) :: rest =>
      data <- process_county fire_df weather_df vegetation_df county_name
                county_info;;
      process_counties fire_df weather_df vegetation_df rest
        (dict_set (county_id county_info) data county_data)
  end.

(** The return value and the files written, or the exception raised
    (nothing has been written then). *)
Definition process_data_by_county : result (bool * list OutFile) :=
  match load_fire_data, load_weather_data, load_vegetation_data with
  | Some fire_df, Some weather_df, Some vegetation_df =>
      county_data <- process_counties fire_df weather_df vegetation_df
                       registry [];;
      Ok (true, fst (save_processed_data county_data))
  | _, _, _ => Ok (false, [])
  end.

End Pipeline.

(** ** Auxiliary definitions for the statements *)

Open Scope Q_scope.

(** [min(1.0, x)] on numbers. *)
Definition cap (x : Q) : Q := if Qltb x 1 then x else 1.

(** [max(0, min(100, x))] on numbers. *)
Definition clamp (x : Q) : Q :=
  let m := if Qltb x 100 then x else 100 in
  if Qltb 0 m then m else 0.

(** The score before it is clamped, on numbers. *)
Definition raw_score (s : Summary) : Q :=
  50
  + (0
     + cap (recentFireCount s / 20) * (-0.2)
     + cap (meanFrp s / 1000) * (-0.1)
     + (meanTemperature s - 50) / 50 * (-0.15)
     + meanHumidity s / 100 * 0.25
     + meanWindSpeed s / 20 * (-0.2)
     + meanNdvi s * 0.1) * 50.

(** The summary of the concrete scenario. *)
Definition scenario : Summary :=
  {| recentFireCount := 10; meanFrp := 2; meanTemperature := 75;
     meanHumidity := 40; meanWindSpeed := 8; meanNdvi := 0.5 |}.

Definition weather_of (s : Summary) : dict value :=
  [ ("temperature", VNum (Fin (meanTemperature s)));
    ("humidity", VNum (Fin (meanHumidity s)));
    ("windSpeed", VNum (Fin (meanWindSpeed s)));
    ("windDirection", VStr "NW") ]%string.



Close Scope Q_scope.

(** Variations of the scenario. *)
Definition with_fires (n : Q) (s : Summary) : Summary :=
  {| recentFireCount := n; meanFrp := meanFrp s;
     meanTemperature := meanTemperature s; meanHumidity := meanHumidity s;
     meanWindSpeed := meanWindSpeed s; meanNdvi := meanNdvi s |}.

Definition with_temperature (t : Q) (s : Summary) : Summary :=
  {| recentFireCount := recentFireCount s; meanFrp := meanFrp s;
     meanTemperature := t; meanHumidity := meanHumidity s;
     meanWindSpeed := meanWindSpeed s; meanNdvi := meanNdvi s |}.


Definition san_francisco : CountyInfo :=
  {| county_id := "sf";
     bounds := {| minlat := 37.7%Q; maxlat := 37.8%Q;
                  minlon := (-122.5)%Q; maxlon := (-122.3)%Q |} |}.

(** ** Auxiliary definitions for the statements about counties and files *)

(** The point lies in the rectangle, its four edges included. *)
Definition inside (b : Bounds) (lat lon : float) : Prop :=
  match lat, lon with
  | Fin la, Fin lo =>
      (minlat b <= la <= maxlat b /\ minlon b <= lo <= maxlon b)%Q
  | _, _ => False
  end.

Definition latitude_of (df : DataFrame) (r : list float) : float :=
  cell (columns df) "latitude" r.

Definition longitude_of (df : DataFrame) (r : list float) : float :=
  cell (columns df) "longitude" r.

Definition frp_of (df : DataFrame) (r : list float) : float :=
  cell (columns df) "frp" r.

(** The fire points (rows) lying within a rectangle. *)
Definition rows_within (df : DataFrame) (b : Bounds) : list (list float) :=
  filter (fun r => within b (latitude_of df r) (longitude_of df r)) (rows df).

(** The fire points that [assign_to_county] gives to a county. *)
Definition rows_assigned (registry : Registry) (df : DataFrame) (id : string)
    : list (list float) :=
  filter (fun r =>
            match assign_to_county registry (latitude_of df r)
                    (longitude_of df r) with
            | Some i => i =? id
            | None => false
            end) (rows df).

(** The mean FRP of a set of fire points, 0 for the empty set. *)
Definition frp_mean (df : DataFrame) (rs : list (list float)) : float :=
  match rs with
  | [] => Fin 0
  | _ => series_mean (map (frp_of df) rs)
  end.

Definition has_fire_columns (df : DataFrame) : bool :=
  mem_string "latitude" (columns df)
  && mem_string "longitude" (columns df)
  && mem_string "frp" (columns df).

Fixpoint distinct_ids (registry : Registry) : bool :=
  match registry with
  | [] => true
  | (_, info) :: rest =>
      negb (mem_string (county_id info)
              (map (fun e => county_id (snd e)) rest))
      && distinct_ids rest
  end.

(** The number of counties whose rectangle contains the point. *)
Definition containing (registry : Registry) (lat lon : float) : nat :=
  List.length (filter (fun e => within (bounds (snd e)) lat lon) registry).

(** No fire point of the frame lies in the rectangles of two counties. *)
Definition no_shared_point (registry : Registry) (df : DataFrame) : bool :=
  forallb (fun r =>
             Nat.leb (containing registry (latitude_of df r)
                        (longitude_of df r)) 1)
          (rows df).

(** A table with two overlapping rectangles, and one fire in both. *)
Definition bay_area : CountyInfo :=
  {| county_id := "bay";
     bounds := {| minlat := 37%Q; maxlat := 38.5%Q;
                  minlon := (-123)%Q; maxlon := (-121.5)%Q |} |}.

Definition overlapping : Registry :=
  [ ("Bay Area", bay_area); ("San Francisco", san_francisco) ].

Definition one_fire : DataFrame :=
  {| columns := ["latitude"; "longitude"; "frp"];
     rows := [ [Fin 37.75%Q; Fin (-122.4)%Q; Fin 12%Q] ] |}.

(** A fire snapshot with one detection in each county of [COUNTIES] and one
    outside both. *)
Definition three_fires : DataFrame :=
  {| columns := ["latitude"; "longitude"; "frp"];
     rows := [ [Fin 37.75%Q; Fin (-122.4)%Q; Fin 12%Q];
               [Fin 34%Q; Fin (-118.2)%Q; Fin 30%Q];
               [Fin 36%Q; Fin (-120)%Q; Fin 7%Q] ] |}.

(** ** Auxiliary definitions for the statements about a run *)

(** The keys of a county record, and of its flattened copy. *)
Definition record_keys : list string :=
  [ "id"; "name"; "coordinates"; "score"; "riskLevel"; "riskColor";
    "recentFires"; "heatMW"; "firmsScore"; "historicalAvg";
    "historicalScore"; "suitabilityScore"; "weatherConditions";
    "hazardProximity"; "firePersonnel"; "equipmentStatus"; "permitStatus" ].

Definition flat_keys : list string :=
  [ "id"; "name"; "coordinates"; "score"; "riskLevel"; "riskColor";
    "recentFires"; "heatMW"; "firmsScore"; "historicalAvg";
    "historicalScore"; "suitabilityScore";
    "hazardProximity"; "firePersonnel"; "equipmentStatus"; "permitStatus";
    "weather_temperature"; "weather_humidity"; "weather_windSpeed";
    "weather_windDirection" ].

Definition combined_path : string := "data/processed/all_counties.csv".

(** The files of a run other than the combined file. *)
Definition per_county_files (files : list OutFile) : list OutFile :=
  filter (fun f => negb (out_path f =? combined_path)) files.

(** The mean of a column, or the default when the frame has no such
    column. *)
Definition mean_or (df : DataFrame) (c : string) (default : Q) : float :=
  if mem_string c (columns df)
  then series_mean (map (cell (columns df) c) (rows df))
  else Fin default.

Definition weather_dict (weather_df : DataFrame) : dict value :=
  [ ("temperature", VNum (mean_or weather_df "TAVG" 70));
    ("humidity", VNum (mean_or weather_df "RHAVG" 50));
    ("windSpeed", VNum (mean_or weather_df "AWND" 5));
    ("windDirection", VStr "NW") ].

(** A county record carrying the weather dictionary [w]. *)
Definition record_with (w : dict value) (data : dict value) : Prop :=
  dict_keys data = record_keys
  /\ dict_get "weatherConditions" data = Some (VDict w).

(** A flattened record whose weather columns are the entries of [w]. *)
Definition flat_with (w : dict value) (flat : dict value) : Prop :=
  dict_keys flat = flat_keys
  /\ dict_get "weather_temperature" flat = dict_get "temperature" w
  /\ dict_get "weather_humidity" flat = dict_get "humidity" w
  /\ dict_get "weather_windSpeed" flat = dict_get "windSpeed" w
  /\ dict_get "weather_windDirection" flat = Some (VStr "NW").

Definition is_fin (x : float) : bool :=
  match x with Fin _ => true | NaN => false end.

(** The fire snapshot has its three columns and no FRP cell is missing. *)
Definition fire_complete (df : DataFrame) : bool :=
  has_fire_columns df && forallb (fun r => is_fin (frp_of df r)) (rows df).

(** ** Sample snapshots *)

Definition fire_file : File :=
  {| path := "california_fires_20250301.csv"; ctime := 100%Q;
     content := Some three_fires |}.

(** A weather snapshot with the three columns the pipeline reads and a wind
    direction column (degrees). *)
Definition weather_file : File :=
  {| path := "station_sf.csv"; ctime := 90%Q;
     content :=
       Some {| columns := ["TAVG"; "RHAVG"; "AWND"; "WDF2"];
               rows := [ [Fin 70%Q; Fin 35%Q; Fin 6%Q; Fin 270%Q];
                         [Fin 80%Q; Fin 45%Q; Fin 10%Q; Fin 180%Q] ] |} |}.

(** A weather snapshot without temperature, humidity and wind speed. *)
Definition bare_weather : DataFrame :=
  {| columns := ["PRCP"; "WDF2"]; rows := [ [Fin 0.2%Q; Fin 90%Q] ] |}.

Definition bare_weather_file : File :=
  {| path := "station_sf.csv"; ctime := 95%Q; content := Some bare_weather |}.

Definition vegetation : DataFrame :=
  {| columns := ["ndvi"]; rows := [ [Fin 0.5%Q] ] |}.

Definition vegetation_file : File :=
  {| path := "california_ndvi.csv"; ctime := 80%Q;
     content := Some vegetation |}.

Definition snapshot_fs (weather : File) : FileSystem :=
  fun directory =>
    if directory =? "data/fire" then [fire_file]
    else if directory =? "data/weather" then [weather]
    else if directory =? "data/vegetation" then [vegetation_file]
    else [].

Definition sample_fs : FileSystem := snapshot_fs weather_file.

Definition bare_weather_fs : FileSystem := snapshot_fs bare_weather_file.

(** ** Auxiliary definitions for further statements about the scoring *)

Definition with_frp (x : Q) (s : Summary) : Summary :=
  {| recentFireCount := recentFireCount s; meanFrp := x;
     meanTemperature := meanTemperature s; meanHumidity := meanHumidity s;
     meanWindSpeed := meanWindSpeed s; meanNdvi := meanNdvi s |}.


(** The three labels of a county record go together. *)
Definition labels_agree (level color hazard : string) : Prop :=
  (level = "Low" /\ color = "green" /\ hazard = "Low")
  \/ (level = "Moderate" /\ color = "yellow" /\ hazard = "Medium")
  \/ (level = "High" /\ color = "red" /\ hazard = "High").

(** A column of the frame is there but holds no number. *)
Definition column_without_numbers (df : DataFrame) (c : string) : bool :=
  mem_string c (columns df)
  && match present (map (cell (columns df) c) (rows df)) with
     | [] => true
     | _ => false
     end.

(** A weather snapshot with its header and no record. *)
Definition header_only_weather : DataFrame :=
  {| columns := ["TAVG"; "RHAVG"; "AWND"]; rows := [] |}.


(** A fire snapshot whose only detection, in San Francisco, has no FRP. *)
Definition fire_without_frp_value : DataFrame :=
  {| columns := ["latitude"; "longitude"; "frp"];
     rows := [ [Fin 37.75%Q; Fin (-122.4)%Q; NaN] ] |}.

(** The county is processed without an exception. *)
Definition county_processed (fire_df weather_df vegetation_df : DataFrame)
    (entry : string * CountyInfo) : Prop :=
  exists data,
    process_county fire_df weather_df vegetation_df (fst entry) (snd entry)
    = Ok data.

Definition fire_without_frp_value_fs : FileSystem :=
  fun directory =>
    if directory =? "data/fire"
    then [ {| path := "california_fires_20250302.csv"; ctime := 110%Q;
              content := Some fire_without_frp_value |} ]
    else sample_fs directory.

Definition los_angeles : CountyInfo :=
  {| county_id := "la";
     bounds := {| minlat := 33.7%Q; maxlat := 34.8%Q;
                  minlon := (-118.7)%Q; maxlon := (-117.7)%Q |} |}.

(** The cells of a column over several frames, frame after frame. *)
Definition pooled_cells (dfs : list DataFrame) (c : string) : list float :=
  flat_map (fun df => map (cell (columns df) c) (rows df)) dfs.

(** Two fire snapshots created at the same time, and an older one. *)
Definition tied_fire_files : list File :=
  [ {| path := "california_fires_a.csv"; ctime := 50%Q; content := None |};
    {| path := "california_fires_b.csv"; ctime := 100%Q;
       content := Some three_fires |};
    {| path := "california_fires_c.csv"; ctime := 100%Q;
       content := Some one_fire |} ].

Definition tied_fs : FileSystem :=
  fun directory =>
    if directory =? "data/fire" then tied_fire_files else sample_fs directory.

(** Two weather files, the second without a temperature column. *)
Definition two_station_files : list DataFrame :=
  [ {| columns := ["TAVG"; "RHAVG"];
       rows := [ [Fin 60%Q; Fin 30%Q]; [Fin 70%Q; Fin 40%Q] ] |};
    {| columns := ["RHAVG"; "AWND"];
       rows := [ [Fin 50%Q; Fin 10%Q] ] |} ].

(** The strings of a list without repetition, in order of first
    appearance. *)
Definition distinct_in_order (l : list string) : list string :=
  add_columns [] l.

(** The columns that a per-county file and the combined file share. *)
Definition shared_keys : list string :=
  [ "id"; "name"; "coordinates"; "score"; "riskLevel"; "riskColor";
    "recentFires"; "heatMW"; "firmsScore"; "historicalAvg";
    "historicalScore"; "suitabilityScore";
    "hazardProximity"; "firePersonnel"; "equipmentStatus"; "permitStatus" ].

(** The per-county file [f] is the flattened form of the entry [item] of
    [county_data]: same name, same values in the shared columns, and the
    entries of the nested weather dictionary in the weather columns. *)
Definition file_of_entry (item : string * dict value) (f : OutFile) : Prop :=
  out_path f = processed_path (fst item)
  /\ dict_get "id" (snd item) = Some (VStr (fst item))
  /\ exists flat w,
       out_records f = [flat]
       /\ dict_keys flat = flat_keys
       /\ Forall (fun k => dict_get k flat = dict_get k (snd item)) shared_keys
       /\ dict_get "weatherConditions" (snd item) = Some (VDict w)
       /\ dict_get "weatherConditions" flat = None
       /\ dict_get "weather_temperature" flat = dict_get "temperature" w
       /\ dict_get "weather_humidity" flat = dict_get "humidity" w
       /\ dict_get "weather_windSpeed" flat = dict_get "windSpeed" w
       /\ dict_get "weather_windDirection" flat = dict_get "windDirection" w
       /\ dict_get "windDirection" w = Some (VStr "NW").

(** A table in which two counties share an identifier. *)
Definition repeated_id : Registry :=
  [ ("San Francisco", san_francisco); ("Los Angeles", los_angeles);
    ("SF Peninsula", san_francisco) ].

(** ** The reader of the per-county files (ai_analysis.py) *)

(** The directory [data/processed]: path to the rows of the CSV file.  A
    file that is written replaces the file of the same path.  The text of
    the cells is not modelled: a row read back is the row written. *)
Definition Directory : Type := dict (list (dict value)).

Definition write_files (files : list OutFile) (dir : Directory) : Directory :=
  fold_left (fun d f => dict_set (out_path f) (out_records f) d) files dir.

Definition get_or (k : string) (default : value) (d : dict value) : value :=
  match dict_get k d with
  | Some v => v
  | None => default
  end.

(** [df.iloc[0].to_dict()]: the first row over all the columns of the file,
    a cell the row lacks being NaN. *)
Definition first_row_dict (rows : list (dict value)) : option (dict value) :=
  let cols := fold_left (fun acc r => add_columns acc (dict_keys r)) rows [] in
  match rows, cols with
  | row :: _, _ :: _ => Some (map (fun c => (c, get_or c (VNum NaN) row)) cols)
  | _, _ => None
  end.

(** [load_county_data]: nothing when the file is not there, cannot be read
    or is empty. *)
Definition load_county_data (dir : Directory) (county_id : string)
    : option (dict value) :=
  match dict_get (processed_path county_id) dir with
  | None => None
  | Some rows => first_row_dict rows
  end.

(** What [generate_burn_assessment] takes from the county data for its
    prompt, each with the default of its [get]. *)
Record PromptData : Type := {
  p_county_name : value;
  p_coordinates : value;
  p_suitability_score : value;
  p_recent_fires : value;
  p_temperature : value;
  p_humidity : value;
  p_wind_speed : value;
  p_wind_direction : value;
  p_hazard_proximity : value
}.

Definition prompt_data (county_data : dict value) : PromptData :=
  {| p_county_name := get_or "name" (VStr "Unknown") county_data;
     p_coordinates := get_or "coordinates" (VStr "Unknown") county_data;
     p_suitability_score := get_or "suitabilityScore" (VInt 0) county_data;
     p_recent_fires := get_or "recentFires" (VInt 0) county_data;
     p_temperature := get_or "weather_temperature" (VInt 70) county_data;
     p_humidity := get_or "weather_humidity" (VInt 50) county_data;
     p_wind_speed := get_or "weather_windSpeed" (VInt 5) county_data;
     p_wind_direction :=
       get_or "weather_windDirection" (VStr "Unknown") county_data;
     p_hazard_proximity := get_or "hazardProximity" (VStr "Unknown") county_data
  |}.

(** The keys that [prompt_data] reads. *)
Definition prompt_keys : list string :=
  [ "name"; "coordinates"; "suitabilityScore"; "recentFires";
    "weather_temperature"; "weather_humidity"; "weather_windSpeed";
    "weather_windDirection"; "hazardProximity" ].

(** ** The scripts (main of process_data.py, run_pipeline.py) *)






(** ** Selection of a file by its name (api/routes) *)

(** [s.endswith(suffix)] *)
Fixpoint endswith (s suffix : string) : bool :=
  (s =? suffix)
  || match s with
     | EmptyString => false
     | String _ s' => endswith s' suffix
     end.

(** The loop of the API loaders over [os.listdir]: among the names that pass
    the filter, a name replaces the one kept so far when it is greater
    ([file > kept]). *)
Definition latest_name (keep : string -> bool) (names : list string)
    : option string :=
  fold_left
    (fun kept file =>
       if keep file then
         match kept with
         | None => Some file
         | Some k => if String.ltb k file then Some file else Some k
         end
       else kept)
    names None.

(** The filters of [load_county_data], [load_assessment] and the data
    routes. *)
Definition is_combined_csv (file : string) : bool :=
  String.prefix "combined_" file && endswith file ".csv".

Definition is_assessment_of (county_id file : string) : bool :=
  String.prefix (county_id ++ "_") file && endswith file ".json".

Definition is_csv (file : string) : bool := endswith file ".csv".

(** What the loop has kept after a list of names, from any start. *)
Definition keeps_greatest (keep : string -> bool) (names : list string)
    (start result : option string) : Prop :=
  match result with
  | None => start = None /\ forall n, In n names -> keep n = false
  | Some r =>
      (start = Some r \/ (In r names /\ keep r = true))
      /\ (forall s, start = Some s -> String.leb s r = true)
      /\ (forall n, In n names -> keep n = true -> String.leb n r = true)
  end.

(** * Properties *)

(** ** Numbers *)

Open Scope Q_scope.

Lemma Qltb_lt (x y : Q) : Qltb x y = true <-> x < y.
Proof.
  unfold Qltb. rewrite negb_true_iff, <- not_true_iff_false, Qle_bool_iff.
  split; [apply Qnot_le_lt | apply Qlt_not_le].
Qed.

Lemma Qltb_ge (x y : Q) : Qltb x y = false <-> y <= x.
Proof.
  unfold Qltb. rewrite negb_false_iff. apply Qle_bool_iff.
Qed.

Ltac qcases :=
  repeat match goal with
         | |- context [Qltb ?a ?b] =>
             lazymatch a with context [Qltb _ _] => fail | _ => idtac end;
             lazymatch b with context [Qltb _ _] => fail | _ => idtac end;
             let E := fresh "E" in
             destruct (Qltb a b) eqn:E;
             [apply Qltb_lt in E | apply Qltb_ge in E]
         end.

Ltac qdiv := unfold Qdiv in *; cbn [Qinv Qnum Qden] in *.



Lemma clamp_range (x : Q) : 0 <= clamp x <= 100.
Proof. unfold clamp. cbv zeta. qcases; lra. Qed.



Lemma py_min_Fin (a b : Q) :
  py_min (Fin a) (Fin b) = Fin (if Qltb b a then b else a).
Proof. unfold py_min, flt. destruct (Qltb b a); reflexivity. Qed.

Lemma py_max_Fin (a b : Q) :
  py_max (Fin a) (Fin b) = Fin (if Qltb a b then b else a).
Proof. unfold py_max, flt. destruct (Qltb a b); reflexivity. Qed.

(** ** The scoring model on numbers *)

Lemma factors_of_Fin (s : Summary) :
  factors_of s =
  [ Fin (cap (recentFireCount s / 20)); Fin (cap (meanFrp s / 1000));
    Fin ((meanTemperature s - 50) / 50); Fin (meanHumidity s / 100);
    Fin (meanWindSpeed s / 20); Fin (meanNdvi s) ].
Proof.
  unfold factors_of, normalized_factors, cap. cbn [fdiv fsub].
  rewrite !py_min_Fin. reflexivity.
Qed.

Lemma suitability_of_Fin (s : Summary) :
  suitability_of s = Fin (clamp (raw_score s)).
Proof.
  unfold suitability_of, calculate_suitability_score, weighted_sum.
  fold (factors_of s). rewrite factors_of_Fin.
  cbn [weights np_mul np_sum fold_left fmul fadd].
  rewrite py_min_Fin, py_max_Fin. unfold clamp, raw_score. cbv zeta.
  reflexivity.
Qed.

Lemma score_is_number (recent_fires avg_frp temperature humidity wind_speed
                       ndvi : float) :
  exists x,
    calculate_suitability_score recent_fires avg_frp temperature humidity
      wind_speed ndvi = Fin x
    /\ 0 <= x <= 100.
Proof.
  unfold calculate_suitability_score. cbv zeta.
  destruct (Fin 50 + weighted_sum recent_fires avg_frp temperature humidity
                       wind_speed ndvi * Fin 50)%float as [q|].
  - rewrite py_min_Fin, py_max_Fin. eexists; split; [reflexivity|].
    apply (clamp_range q).
  - exists 100. split; [reflexivity | lra].
Qed.



(** [C2] (as amended) The six normalized factors are numbers given by the
    stated formulas: the fire and FRP factors are the smaller of 1 and the
    scaled input, the other four are the scaled input itself.  Only the fire
    and FRP factors are capped, and only from above: each factor lies in
    [0,1] exactly when its input lies in the nominal range (fires and FRP
    non-negative, temperature 50..100, humidity 0..100, wind 0..20, NDVI
    0..1). *)
Theorem normalized_factors_ranges (s : Summary) :
  exists f_fires f_frp f_temp f_hum f_wind f_ndvi : Q,
    factors_of s =
      [Fin f_fires; Fin f_frp; Fin f_temp; Fin f_hum; Fin f_wind; Fin f_ndvi]
    /\ (f_fires <= 1 /\ f_fires <= recentFireCount s / 20
        /\ (f_fires == 1 \/ f_fires == recentFireCount s / 20))
    /\ (f_frp <= 1 /\ f_frp <= meanFrp s / 1000
        /\ (f_frp == 1 \/ f_frp == meanFrp s / 1000))
    /\ f_temp == (meanTemperature s - 50) / 50
    /\ f_hum == meanHumidity s / 100
    /\ f_wind == meanWindSpeed s / 20
    /\ f_ndvi == meanNdvi s
    /\ (0 <= f_fires <= 1 <-> 0 <= recentFireCount s)
    /\ (0 <= f_frp <= 1 <-> 0 <= meanFrp s)
    /\ (0 <= f_temp <= 1 <-> 50 <= meanTemperature s <= 100)
    /\ (0 <= f_hum <= 1 <-> 0 <= meanHumidity s <= 100)
    /\ (0 <= f_wind <= 1 <-> 0 <= meanWindSpeed s <= 20)
    /\ (0 <= f_ndvi <= 1 <-> 0 <= meanNdvi s <= 1).
Proof.
  do 6 eexists. split; [apply factors_of_Fin|].
  unfold cap. qdiv.
  repeat split; qcases; try lra.
Qed.

(** [C2] (as stated) With a mean temperature of 40 the temperature factor is
    -0.2: the factors do not all lie in [0,1]. *)
Lemma cold_factor_out_of_range :
  ~ Forall in_unit_interval (factors_of (with_temperature 40 scenario)).
Proof.
  intros H. rewrite factors_of_Fin in H.
  do 2 apply Forall_inv_tail in H. apply Forall_inv in H.
  destruct H as [H _]. vm_compute in H. apply H. reflexivity.
Qed.






(** [C4] For all numeric inputs, and so for all finite non-negative ones
    however large, the suitability is a number within [0,100]. *)
Theorem suitability_in_range (s : Summary) :
  exists x, suitability_of s = Fin x /\ 0 <= x <= 100.
Proof.
  exists (clamp (raw_score s)). split.
  - apply suitability_of_Fin.
  - apply clamp_range.
Qed.

Example suitability_ten_thousand_fires :
  feq (suitability_of (with_fires 10000 scenario)) (Fin 39.74).
Proof. vm_compute. reflexivity. Qed.

Close Scope Q_scope.

(** ** Assignment of a point to a county *)

Lemma within_inside (b : Bounds) (lat lon : float) :
  within b lat lon = true <-> inside b lat lon.
Proof.
  unfold within, inside, fle.
  destruct lat as [la|], lon as [lo|]; cbn;
    rewrite ?andb_true_iff, ?Qle_bool_iff; try tauto;
    rewrite ?andb_false_r; intuition discriminate.
Qed.

(** [C5] [assign_to_county] scans the table in its order and returns the
    identifier of the first county whose rectangle contains the point, the
    four edges included: the table splits into counties that do not contain
    the point, the county returned, and the rest, whatever the rest contains.
    It returns nothing exactly when no rectangle contains the point. *)
Theorem assign_to_county_first_match (registry : Registry) (lat lon : float) :
  match assign_to_county registry lat lon with
  | Some id =>
      exists before county_name county_info after,
        registry = before ++ (county_name, county_info) :: after
        /\ id = county_id county_info
        /\ inside (bounds county_info) lat lon
        /\ Forall (fun e => ~ inside (bounds (snd e)) lat lon) before
  | None => Forall (fun e => ~ inside (bounds (snd e)) lat lon) registry
  end.
Proof.
  induction registry as [|[county_name county_info] rest IH]; cbn.
  - constructor.
  - destruct (within (bounds county_info) lat lon) eqn:Hin.
    + exists [], county_name, county_info, rest.
      rewrite within_inside in Hin. auto.
    + assert (Hout : ~ inside (bounds county_info) lat lon)
        by (rewrite <- within_inside, Hin; discriminate).
      destruct (assign_to_county rest lat lon) as [id|].
      * destruct IH as (before & n & info & after & -> & -> & Hinside & Hbefore).
        exists ((county_name, county_info) :: before), n, info, after.
        repeat split; auto; apply Hinside.
      * constructor; assumption.
Qed.

Example overlapping_first_wins :
  within (bounds bay_area) (Fin 37.75%Q) (Fin (-122.4)%Q) = true
  /\ within (bounds san_francisco) (Fin 37.75%Q) (Fin (-122.4)%Q) = true
  /\ assign_to_county overlapping (Fin 37.75%Q) (Fin (-122.4)%Q) = Some "bay".
Proof. repeat split. Qed.

Example edges_are_inclusive :
  assign_to_county COUNTIES (Fin 37.7%Q) (Fin (-122.3)%Q) = Some "sf"
  /\ assign_to_county COUNTIES (Fin 34.8%Q) (Fin (-118.7)%Q) = Some "la"
  /\ assign_to_county COUNTIES (Fin 36%Q) (Fin (-120)%Q) = None.
Proof. repeat split. Qed.

(** ** Selection of the latest source file *)

Lemma max_by_key_in (key : File -> Q) (rest : list File) (best : File) :
  In (max_by_key key best rest) (best :: rest).
Proof.
  revert best. induction rest as [|f rest IH]; intros best; cbn.
  - left; reflexivity.
  - destruct (Qltb (key best) (key f)).
    + right. apply IH.
    + destruct (IH best) as [H | H]; [left | right; right]; exact H.
Qed.

Lemma max_by_key_ge_best (key : File -> Q) (rest : list File) (best : File) :
  (key best <= key (max_by_key key best rest))%Q.
Proof.
  revert best. induction rest as [|f rest IH]; intros best; cbn.
  - apply Qle_refl.
  - destruct (Qltb (key best) (key f)) eqn:E.
    + apply Qltb_lt in E. specialize (IH f). lra.
    + apply IH.
Qed.

Lemma max_by_key_greatest (key : File -> Q) (rest : list File) (best g : File) :
  In g (best :: rest) -> (key g <= key (max_by_key key best rest))%Q.
Proof.
  revert best. induction rest as [|f rest IH]; intros best Hin.
  - destruct Hin as [<- | []]. apply Qle_refl.
  - cbn [max_by_key]. destruct (Qltb (key best) (key f)) eqn:E.
    + apply Qltb_lt in E. destruct Hin as [<- | Hin].
      * pose proof (max_by_key_ge_best key rest f). lra.
      * apply IH, Hin.
    + apply Qltb_ge in E. destruct Hin as [<- | [<- | Hin]].
      * apply max_by_key_ge_best.
      * pose proof (max_by_key_ge_best key rest best). lra.
      * apply IH. right. exact Hin.
Qed.

Section Selector.

Variable fnmatch : string -> string -> bool.
Variable registry : Registry.
Variable fs : FileSystem.

(** [C8] [get_latest_file] fails (returns nothing) exactly when no entry
    of the directory matches the pattern; otherwise it returns a matching
    entry whose creation time is the greatest among the matching entries.
    When it fails for the fire or the vegetation source, or when no
    weather file matches, the run aborts: it returns false and writes no
    file. *)
Theorem get_latest_file_selects (directory pattern : string) :
  (get_latest_file fnmatch fs directory pattern = None
   <-> forall f, In f (fs directory) -> fnmatch pattern (path f) = false)
  /\ (forall f,
        get_latest_file fnmatch fs directory pattern = Some f ->
        In f (fs directory) /\ fnmatch pattern (path f) = true
        /\ forall g, In g (fs directory) -> fnmatch pattern (path g) = true ->
                     (ctime g <= ctime f)%Q)
  /\ (get_latest_file fnmatch fs "data/fire" "california_fires_*.csv" = None
      \/ glob fnmatch fs "data/weather" "*.csv" = []
      \/ get_latest_file fnmatch fs "data/vegetation" "*_ndvi.csv" = None ->
      process_data_by_county fnmatch registry fs = Ok (false, [])).
Proof.
  unfold get_latest_file, glob. split; [split | split].
  - intros Hnone f Hin.
    destruct (fnmatch pattern (path f)) eqn:Hm; [|reflexivity].
    assert (Hf : In f (filter (fun f => fnmatch pattern (path f))
                          (fs directory)))
      by (apply filter_In; auto).
    destruct (filter _ (fs directory)); [destruct Hf | discriminate].
  - intros Hall.
    destruct (filter _ (fs directory)) as [|f files] eqn:Hfilter;
      [reflexivity|].
    assert (Hf : In f (filter (fun f => fnmatch pattern (path f))
                          (fs directory)))
      by (rewrite Hfilter; left; reflexivity).
    apply filter_In in Hf. destruct Hf as [Hin Hm].
    rewrite (Hall f Hin) in Hm. discriminate.
  - intros f.
    destruct (filter _ (fs directory)) as [|f0 files] eqn:Hfilter;
      [discriminate|].
    intros [= <-].
    pose proof (max_by_key_in ctime files f0) as Hin.
    rewrite <- Hfilter in Hin. apply filter_In in Hin.
    destruct Hin as [Hin Hm]. split; [exact Hin | split; [exact Hm|]].
    intros g Hg Hgm. apply max_by_key_greatest. rewrite <- Hfilter.
    apply filter_In; auto.
  - unfold process_data_by_county, load_fire_data, load_weather_data,
      load_vegetation_data, get_latest_file, glob.
    intros [H | [H | H]].
    + destruct (filter _ (fs "data/fire")); [|discriminate].
      reflexivity.
    + rewrite H. destruct (match filter _ (fs "data/fire") with
                           | [] => None
                           | f :: files => Some (max_by_key ctime f files)
                           end) as [f|]; [|reflexivity].
      destruct (content f); reflexivity.
    + destruct (filter _ (fs "data/vegetation")); [|discriminate].
      destruct (match filter _ (fs "data/fire") with
                | [] => None
                | f :: files => Some (max_by_key ctime f files)
                end) as [f|]; [|reflexivity].
      destruct (content f); [|reflexivity].
      destruct (match filter _ (fs "data/weather") with
                | [] => None
                | _ => _
                end); reflexivity.
Qed.

End Selector.

(** ** Data frames *)

Lemma mem_string_In (s : string) (l : list string) :
  mem_string s l = true <-> In s l.
Proof.
  induction l as [|s' l IH]; cbn.
  - split; [discriminate | tauto].
  - rewrite orb_true_iff, IH, String.eqb_eq. split; intros [H | H]; auto.
Qed.

Lemma index_of_mem (c : string) (cols : list string) :
  mem_string c cols = true -> exists i, index_of c cols = Some i.
Proof.
  induction cols as [|c' cols IH]; cbn; [discriminate|].
  destruct (c =? c'); [eauto|]. cbn. intros H.
  destruct (IH H) as [i ->]. eauto.
Qed.

Lemma series_cells (df : DataFrame) (c : string) :
  mem_string c (columns df) = true ->
  series df c = Ok (map (cell (columns df) c) (rows df)).
Proof.
  intros H. destruct (index_of_mem _ _ H) as [i Hi].
  unfold series, cell. rewrite Hi. reflexivity.
Qed.

Lemma and_mask_map {A : Type} (f g : A -> bool) (l : list A) :
  and_mask (map f l) (map g l) = map (fun x => f x && g x) l.
Proof. induction l as [|x l IH]; cbn; [|rewrite IH]; reflexivity. Qed.

Lemma keep_map {A : Type} (f : A -> bool) (l : list A) :
  keep l (map f l) = filter f l.
Proof.
  induction l as [|x l IH]; cbn; [reflexivity|].
  rewrite IH. destruct (f x); reflexivity.
Qed.

Lemma fire_mask_within (df : DataFrame) (b : Bounds) :
  mem_string "latitude" (columns df) = true ->
  mem_string "longitude" (columns df) = true ->
  fire_mask df b =
  Ok (map (fun r => within b (latitude_of df r) (longitude_of df r)) (rows df)).
Proof.
  intros Hlat Hlon. unfold fire_mask.
  rewrite (series_cells df "latitude" Hlat), (series_cells df "longitude" Hlon).
  cbn [bind]. unfold ge_mask, le_mask. rewrite !map_map, !and_mask_map.
  f_equal. apply map_ext. intros r. unfold within, latitude_of, longitude_of.
  rewrite andb_assoc. reflexivity.
Qed.

Lemma aggregate_fire_within (df : DataFrame) (b : Bounds) :
  has_fire_columns df = true ->
  aggregate_fire df b =
  Ok (Z.of_nat (List.length (rows_within df b)),
      frp_mean df (rows_within df b)).
Proof.
  unfold has_fire_columns. rewrite !andb_true_iff. intros [[Hlat Hlon] Hfrp].
  unfold aggregate_fire. rewrite (fire_mask_within df b Hlat Hlon).
  cbn [bind]. unfold df_filter, df_len, df_empty. cbn [rows columns].
  rewrite keep_map. fold (rows_within df b).
  destruct (rows_within df b) as [|r rs] eqn:Hrows; [reflexivity|].
  destruct (columns df) as [|c cols] eqn:Hcols; [discriminate Hlat|].
  cbn [negb]. unfold series. cbn [rows columns].
  destruct (index_of_mem "frp" (c :: cols) Hfrp) as [i Hi]. rewrite Hi.
  cbn [bind]. unfold frp_mean, frp_of, cell. rewrite Hcols, Hi. reflexivity.
Qed.

(** ** Counting by rectangle and counting by assigned county *)

Lemma assign_to_county_id (registry : Registry) (lat lon : float) (id : string) :
  assign_to_county registry lat lon = Some id ->
  mem_string id (map (fun e => county_id (snd e)) registry) = true.
Proof.
  induction registry as [|[n info] rest IH]; cbn; [discriminate|].
  destruct (within (bounds info) lat lon).
  - intros [= <-]. rewrite String.eqb_refl. reflexivity.
  - intros H. rewrite (IH H). apply orb_true_r.
Qed.

Lemma containing_none (registry : Registry) (lat lon : float)
    (e : string * CountyInfo) :
  containing registry lat lon = O -> In e registry ->
  within (bounds (snd e)) lat lon = false.
Proof.
  unfold containing. intros Hnone Hin.
  destruct (within (bounds (snd e)) lat lon) eqn:Hw; [|reflexivity].
  assert (Hf : In e (filter (fun e => within (bounds (snd e)) lat lon)
                        registry)) by (apply filter_In; auto).
  destruct (filter _ registry); [destruct Hf | discriminate].
Qed.

Lemma within_iff_assigned (registry : Registry) (lat lon : float)
    (county_name : string) (county_info : CountyInfo) :
  distinct_ids registry = true ->
  (containing registry lat lon <= 1)%nat ->
  In (county_name, county_info) registry ->
  within (bounds county_info) lat lon =
  match assign_to_county registry lat lon with
  | Some i => i =? county_id county_info
  | None => false
  end.
Proof.
  induction registry as [|[n info] rest IH]; [intros _ _ []|].
  cbn [distinct_ids]. rewrite andb_true_iff, negb_true_iff.
  intros [Hfresh Hdistinct] Hcount Hin.
  unfold containing in Hcount. cbn [filter snd] in Hcount.
  cbn [assign_to_county].
  destruct (within (bounds info) lat lon) eqn:Hhead.
  - cbn [List.length] in Hcount.
    assert (Hnone : containing rest lat lon = O) by (unfold containing; lia).
    destruct Hin as [[= -> ->] | Hin].
    + rewrite Hhead, String.eqb_refl. reflexivity.
    + pose proof (containing_none rest lat lon _ Hnone Hin) as Hout.
      cbn [snd] in Hout. rewrite Hout.
      symmetry. apply String.eqb_neq. intros Heq.
      apply not_true_iff_false in Hfresh. apply Hfresh.
      rewrite Heq. apply mem_string_In.
      apply (in_map (fun e => county_id (snd e)) _ _ Hin).
  - destruct Hin as [[= -> ->] | Hin].
    + rewrite Hhead.
      destruct (assign_to_county rest lat lon) as [i|] eqn:Hassign;
        [|reflexivity].
      symmetry. apply String.eqb_neq. intros ->.
      apply assign_to_county_id in Hassign. congruence.
    + apply IH; assumption.
Qed.

(** [C6] (as amended) For a fire snapshot with its latitude, longitude and
    frp columns, the aggregation of a county raises no error; its fire count
    is the number of fire points lying within the county's own rectangle
    (edges included) and its mean FRP is the mean over exactly those points,
    0 when there are none.  The county table is not scanned: a point in the
    rectangles of two counties is among the points of both.  When the
    identifiers of the table are distinct and no fire point lies in two
    rectangles, the points counted for a county of the table are exactly
    those that [assign_to_county] gives to it. *)
Theorem aggregate_fire_counts (registry : Registry) (fire_df : DataFrame)
    (county_name : string) (county_info : CountyInfo) :
  has_fire_columns fire_df = true ->
  In (county_name, county_info) registry ->
  aggregate_fire fire_df (bounds county_info) =
    Ok (Z.of_nat (List.length (rows_within fire_df (bounds county_info))),
        frp_mean fire_df (rows_within fire_df (bounds county_info)))
  /\ (distinct_ids registry = true ->
      no_shared_point registry fire_df = true ->
      rows_within fire_df (bounds county_info) =
      rows_assigned registry fire_df (county_id county_info)).
Proof.
  intros Hcols Hin. split; [apply aggregate_fire_within, Hcols|].
  intros Hdistinct Hshared. unfold rows_within, rows_assigned.
  apply filter_ext_in. intros r Hr.
  apply (within_iff_assigned registry _ _ county_name); auto.
  unfold no_shared_point in Hshared. rewrite forallb_forall in Hshared.
  apply Nat.leb_le, Hshared, Hr.
Qed.

Lemma aggregate_fire_counts_witness :
  has_fire_columns three_fires = true
  /\ In ("San Francisco", san_francisco) COUNTIES
  /\ distinct_ids COUNTIES = true
  /\ no_shared_point COUNTIES three_fires = true
  /\ aggregate_fire three_fires (bounds san_francisco) =
       Ok (1%Z, frp_mean three_fires (rows_within three_fires
                                        (bounds san_francisco)))
  /\ rows_assigned COUNTIES three_fires "sf" =
       [ [Fin 37.75%Q; Fin (-122.4)%Q; Fin 12%Q] ].
Proof.
  assert (Hcols : has_fire_columns three_fires = true) by reflexivity.
  assert (Hin : In ("San Francisco", san_francisco) COUNTIES)
    by (left; reflexivity).
  destruct (aggregate_fire_counts COUNTIES three_fires "San Francisco"
              san_francisco Hcols Hin) as [Hagg Hrows].
  repeat split; try assumption; try reflexivity.
Defined.

(** [C6] (as stated) With two overlapping rectangles and one fire in both,
    the second county of the table counts the fire although
    [assign_to_county] gives it to the first. *)
Lemma overlap_counted_in_both :
  ~ (exists recent_fires avg_frp,
       aggregate_fire one_fire (bounds san_francisco) =
         Ok (recent_fires, avg_frp)
       /\ recent_fires =
          Z.of_nat (List.length (rows_assigned overlapping one_fire "sf"))).
Proof.
  intros (recent_fires & avg_frp & Hagg & Hcount).
  rewrite aggregate_fire_within in Hagg by reflexivity.
  injection Hagg as <- _. vm_compute in Hcount. discriminate Hcount.
Qed.

Example overlap_counts :
  aggregate_fire one_fire (bounds bay_area) = Ok (1%Z, Fin (Qmean [12%Q]))
  /\ aggregate_fire one_fire (bounds san_francisco)
     = Ok (1%Z, Fin (Qmean [12%Q]))
  /\ rows_assigned overlapping one_fire "bay" = rows one_fire
  /\ rows_assigned overlapping one_fire "sf" = [].
Proof. repeat split. Qed.

(** ** The record of a county *)

Lemma column_mean_or_ok (df : DataFrame) (c : string) (default : Q) :
  column_mean_or df c default = Ok (mean_or df c default).
Proof.
  unfold column_mean_or, mean_or.
  destruct (mem_string c (columns df)) eqn:Hmem; [|reflexivity].
  rewrite (series_cells df c Hmem). reflexivity.
Qed.

Lemma county_weather_ok (weather_df : DataFrame) :
  county_weather weather_df = Ok (weather_dict weather_df).
Proof.
  unfold county_weather. rewrite !column_mean_or_ok. reflexivity.
Qed.

Lemma bind_ok {A B : Type} (m : result A) (k : A -> result B) (b : B) :
  bind m k = Ok b -> exists a, m = Ok a /\ k a = Ok b.
Proof. destruct m as [a|e]; cbn; [eauto | discriminate]. Qed.

Lemma score_county_shape (county_name : string) (county_info : CountyInfo)
    (recent_fires : Z) (avg_frp : float) (w : dict value) (county_ndvi : float)
    (data : dict value) :
  score_county county_name county_info recent_fires avg_frp w county_ndvi
  = Ok data ->
  record_with w data.
Proof.
  unfold score_county. intros H.
  repeat (apply bind_ok in H; destruct H as (? & _ & H)).
  injection H as <-. split; reflexivity.
Qed.

Lemma score_county_ok (county_name : string) (county_info : CountyInfo)
    (recent_fires : Z) (q : Q) (weather_df : DataFrame) (county_ndvi : float) :
  exists data,
    score_county county_name county_info recent_fires (Fin q)
      (weather_dict weather_df) county_ndvi = Ok data.
Proof.
  unfold score_county. cbn [get_num weather_dict dict_get String.eqb
                            Ascii.eqb Bool.eqb bind].
  destruct (score_is_number (of_int recent_fires) (Fin q)
              (mean_or weather_df "TAVG" 70) (mean_or weather_df "RHAVG" 50)
              (mean_or weather_df "AWND" 5) county_ndvi) as (x & -> & _).
  cbn. eexists. reflexivity.
Qed.

Lemma flatten_record (w_df : DataFrame) (data : dict value) :
  record_with (weather_dict w_df) data ->
  exists flat, flatten data = Some flat /\ flat_with (weather_dict w_df) flat.
Proof.
  intros [Hkeys Hweather]. unfold dict_keys, record_keys in Hkeys.
  repeat (destruct data as [|[? ?] data];
          [discriminate Hkeys|];
          cbn [map fst] in Hkeys; injection Hkeys as -> Hkeys).
  destruct data; [|discriminate Hkeys].
  cbn in Hweather. injection Hweather as ->.
  eexists. split; [reflexivity|]. repeat split.
Qed.

Lemma process_county_shape (fire_df weather_df vegetation_df : DataFrame)
    (county_name : string) (county_info : CountyInfo) (data : dict value) :
  process_county fire_df weather_df vegetation_df county_name county_info
  = Ok data ->
  record_with (weather_dict weather_df) data.
Proof.
  unfold process_county. intros H.
  apply bind_ok in H. destruct H as ([recent_fires avg_frp] & _ & H).
  rewrite county_weather_ok, column_mean_or_ok in H. cbn [bind] in H.
  apply score_county_shape in H. exact H.
Qed.

Lemma frp_mean_fin (df : DataFrame) (rs : list (list float)) :
  (forall r, In r rs -> is_fin (frp_of df r) = true) ->
  exists q, frp_mean df rs = Fin q.
Proof.
  destruct rs as [|r rs]; intros Hfin; cbn.
  - eauto.
  - unfold series_mean. cbn [map present].
    destruct (frp_of df r) eqn:Hr.
    + eauto.
    + specialize (Hfin r (or_introl eq_refl)). rewrite Hr in Hfin.
      discriminate Hfin.
Qed.

Lemma process_county_ok (fire_df weather_df vegetation_df : DataFrame)
    (county_name : string) (county_info : CountyInfo) :
  fire_complete fire_df = true ->
  exists data,
    process_county fire_df weather_df vegetation_df county_name county_info
    = Ok data.
Proof.
  unfold fire_complete. rewrite andb_true_iff, forallb_forall.
  intros [Hcols Hfin]. unfold process_county.
  rewrite (aggregate_fire_within _ _ Hcols). cbn [bind].
  destruct (frp_mean_fin fire_df (rows_within fire_df (bounds county_info)))
    as [q ->].
  { intros r Hr. apply Hfin. unfold rows_within in Hr.
    apply filter_In in Hr. apply Hr. }
  rewrite county_weather_ok, column_mean_or_ok. cbn [bind].
  apply score_county_ok.
Qed.

(** ** The loop over the counties and the files written *)

Lemma dict_set_values {V : Type} (P : V -> Prop) (k : string) (v : V)
    (d : dict V) :
  P v -> Forall P (dict_values d) -> Forall P (dict_values (dict_set k v d)).
Proof.
  intros Hv. induction d as [|[k' v'] d IH]; cbn; intros Hd.
  - constructor; [exact Hv | constructor].
  - inversion Hd as [|? ? Hv' Hd']; subst.
    destruct (k =? k'); cbn; constructor; auto.
Qed.

Lemma dict_set_not_empty {V : Type} (k : string) (v : V) (d : dict V) :
  dict_set k v d <> [].
Proof. destruct d as [|[k' v'] d]; cbn; [|destruct (k =? k')]; discriminate. Qed.

Section Run.

Variable fnmatch : string -> string -> bool.
Variables fire_df weather_df vegetation_df : DataFrame.

Lemma process_counties_shape (counties : Registry)
    (acc county_data : dict (dict value)) :
  process_counties fire_df weather_df vegetation_df counties acc
  = Ok county_data ->
  Forall (record_with (weather_dict weather_df)) (dict_values acc) ->
  Forall (record_with (weather_dict weather_df)) (dict_values county_data).
Proof.
  revert acc. induction counties as [|[county_name county_info] rest IH];
    intros acc; cbn [process_counties].
  - intros [= <-] Hacc. exact Hacc.
  - intros H Hacc. apply bind_ok in H. destruct H as (data & Hdata & H).
    apply (IH _ H). apply dict_set_values; [|exact Hacc].
    apply (process_county_shape _ _ _ _ _ _ Hdata).
Qed.

Lemma process_counties_not_empty (counties : Registry)
    (acc county_data : dict (dict value)) :
  process_counties fire_df weather_df vegetation_df counties acc
  = Ok county_data ->
  counties <> [] \/ acc <> [] -> county_data <> [].
Proof.
  revert acc. induction counties as [|[county_name county_info] rest IH];
    intros acc; cbn [process_counties].
  - intros [= <-] [H | H]; [contradiction | exact H].
  - intros H _. apply bind_ok in H. destruct H as (data & _ & H).
    apply (IH _ H). right. apply dict_set_not_empty.
Qed.

Lemma process_counties_ok (counties : Registry) (acc : dict (dict value)) :
  fire_complete fire_df = true ->
  exists county_data,
    process_counties fire_df weather_df vegetation_df counties acc
    = Ok county_data.
Proof.
  intros Hfire. revert acc.
  induction counties as [|[county_name county_info] rest IH]; intros acc;
    cbn [process_counties].
  - eauto.
  - destruct (process_county_ok fire_df weather_df vegetation_df county_name
                county_info Hfire) as [data ->].
    cbn [bind]. apply IH.
Qed.

Lemma save_counties_shape (items : dict (dict value)) :
  Forall (record_with (weather_dict weather_df)) (dict_values items) ->
  exists written,
    save_counties items = (written, true)
    /\ List.length written = List.length items
    /\ Forall (fun f => exists flat,
                   out_records f = [flat]
                   /\ flat_with (weather_dict weather_df) flat) written.
Proof.
  induction items as [|[county_id data] items IH]; cbn; intros Hitems.
  - exists []. repeat split. constructor.
  - inversion Hitems as [|? ? Hdata Hrest]; subst.
    destruct (flatten_record weather_df data Hdata) as (flat & -> & Hflat).
    destruct (IH Hrest) as (written & -> & Hlen & Hwritten).
    eexists. split; [reflexivity|]. split; [cbn; congruence|].
    constructor; [|exact Hwritten]. exists flat. split; [reflexivity|exact Hflat].
Qed.

End Run.

(** ** A run of the pipeline *)

Lemma run_output (fnmatch : string -> string -> bool) (registry : Registry)
    (fs : FileSystem) (ok : bool) (files : list OutFile) :
  process_data_by_county fnmatch registry fs = Ok (ok, files) ->
  (ok = false /\ files = [])
  \/ (ok = true
      /\ exists weather_df county_data written,
           load_weather_data fnmatch fs = Some weather_df
           /\ files = written ++ [ {| out_path := combined_path;
                                      out_records := dict_values county_data |} ]
           /\ List.length written = List.length county_data
           /\ (registry <> [] -> county_data <> [])
           /\ Forall (record_with (weather_dict weather_df))
                (dict_values county_data)
           /\ Forall (fun f => exists flat,
                          out_records f = [flat]
                          /\ flat_with (weather_dict weather_df) flat)
                written).
Proof.
  unfold process_data_by_county.
  destruct (load_fire_data fnmatch fs) as [fire_df|];
    [|intros [= <- <-]; left; split; reflexivity].
  destruct (load_weather_data fnmatch fs) as [weather_df|];
    [|intros [= <- <-]; left; split; reflexivity].
  destruct (load_vegetation_data fnmatch fs) as [vegetation_df|];
    [|intros [= <- <-]; left; split; reflexivity].
  intros H. apply bind_ok in H. destruct H as (county_data & Hloop & H).
  injection H as <- <-. right. split; [reflexivity|].
  assert (Hshape : Forall (record_with (weather_dict weather_df))
                     (dict_values county_data))
    by (apply (process_counties_shape _ _ _ _ _ _ Hloop); constructor).
  destruct (save_counties_shape weather_df county_data Hshape)
    as (written & Hsave & Hlen & Hwritten).
  exists weather_df, county_data, written.
  unfold save_processed_data. rewrite Hsave. cbn [fst].
  repeat split; auto.
  intros Hreg. apply (process_counties_not_empty _ _ _ _ _ _ Hloop).
  left. exact Hreg.
Qed.

Lemma run_succeeds (fnmatch : string -> string -> bool) (registry : Registry)
    (fs : FileSystem) (fire_df weather_df vegetation_df : DataFrame) :
  load_fire_data fnmatch fs = Some fire_df ->
  load_weather_data fnmatch fs = Some weather_df ->
  load_vegetation_data fnmatch fs = Some vegetation_df ->
  fire_complete fire_df = true ->
  exists files, process_data_by_county fnmatch registry fs = Ok (true, files).
Proof.
  intros Hfire Hweather Hveg Hcomplete. unfold process_data_by_county.
  rewrite Hfire, Hweather, Hveg.
  destruct (process_counties_ok fire_df weather_df vegetation_df registry []
              Hcomplete) as [county_data ->].
  cbn [bind]. eauto.
Qed.

Lemma per_county_files_written (written : list OutFile) (combined f : OutFile) :
  out_path combined = combined_path ->
  In f (per_county_files (written ++ [combined])) -> In f written.
Proof.
  intros Hpath Hin. unfold per_county_files in Hin.
  apply filter_In in Hin. destruct Hin as [Hin Hf].
  apply in_app_or in Hin. destruct Hin as [Hin | [<- | []]]; [exact Hin|].
  rewrite Hpath, String.eqb_refl in Hf. discriminate Hf.
Qed.

(** [C7] (as amended) A weather snapshot that lacks the temperature,
    humidity or wind speed column (TAVG, RHAVG, AWND) raises no error: the
    default 70, 50 or 5 stands in for the mean of the missing column, and
    likewise 0.5 for a vegetation snapshot without ndvi.  With the three
    sources loaded and a fire snapshot that has its latitude, longitude and
    frp columns with no FRP cell missing, the run goes on to its end: it
    returns true and writes its files, and the weather columns of every
    per-county file carry the column means or these defaults. *)
Theorem missing_columns_get_defaults (fnmatch : string -> string -> bool)
    (registry : Registry) (fs : FileSystem)
    (fire_df weather_df vegetation_df : DataFrame) :
  load_fire_data fnmatch fs = Some fire_df ->
  load_weather_data fnmatch fs = Some weather_df ->
  load_vegetation_data fnmatch fs = Some vegetation_df ->
  fire_complete fire_df = true ->
  let column c := series_mean (map (cell (columns weather_df) c)
                                   (rows weather_df)) in
  let temperature :=
    if mem_string "TAVG" (columns weather_df) then column "TAVG"
    else Fin 70 in
  let humidity :=
    if mem_string "RHAVG" (columns weather_df) then column "RHAVG"
    else Fin 50 in
  let windSpeed :=
    if mem_string "AWND" (columns weather_df) then column "AWND"
    else Fin 5 in
  county_weather weather_df =
    Ok [ ("temperature", VNum temperature); ("humidity", VNum humidity);
         ("windSpeed", VNum windSpeed); ("windDirection", VStr "NW") ]
  /\ column_mean_or vegetation_df "ndvi" 0.5 =
       Ok (if mem_string "ndvi" (columns vegetation_df)
           then series_mean (map (cell (columns vegetation_df) "ndvi")
                               (rows vegetation_df))
           else Fin 0.5)
  /\ exists files,
       process_data_by_county fnmatch registry fs = Ok (true, files)
       /\ files <> []
       /\ forall f flat,
            In f (per_county_files files) -> In flat (out_records f) ->
            dict_get "weather_temperature" flat = Some (VNum temperature)
            /\ dict_get "weather_humidity" flat = Some (VNum humidity)
            /\ dict_get "weather_windSpeed" flat = Some (VNum windSpeed).
Proof.
  intros Hfire Hweather Hveg Hcomplete. cbv zeta.
  split; [apply county_weather_ok|]. split; [apply column_mean_or_ok|].
  destruct (run_succeeds fnmatch registry fs _ _ _ Hfire Hweather Hveg
              Hcomplete) as [files Hrun].
  exists files. split; [exact Hrun|].
  apply run_output in Hrun.
  destruct Hrun as [[Hok _] | (_ & w & county_data & written & Hw & -> & _ & _
                               & _ & Hwritten)]; [discriminate Hok|].
  rewrite Hweather in Hw. injection Hw as <-.
  split; [destruct written; discriminate|].
  intros f flat Hf Hflat.
  apply per_county_files_written in Hf; [|reflexivity].
  rewrite Forall_forall in Hwritten.
  destruct (Hwritten f Hf) as (flat' & Hrec & _ & Ht & Hh & Hs & _).
  rewrite Hrec in Hflat. destruct Hflat as [<- | []].
  rewrite Ht, Hh, Hs. repeat split.
Qed.

Lemma missing_columns_get_defaults_witness :
  load_fire_data star_match bare_weather_fs = Some three_fires
  /\ load_weather_data star_match bare_weather_fs
     = Some (pd_concat [bare_weather])
  /\ load_vegetation_data star_match bare_weather_fs = Some vegetation
  /\ fire_complete three_fires = true
  /\ county_weather (pd_concat [bare_weather]) =
       Ok [ ("temperature", VNum (Fin 70)); ("humidity", VNum (Fin 50));
            ("windSpeed", VNum (Fin 5)); ("windDirection", VStr "NW") ]
  /\ exists files,
       process_data_by_county star_match COUNTIES bare_weather_fs
       = Ok (true, files)
       /\ files <> [].
Proof.
  pose proof (missing_columns_get_defaults star_match COUNTIES bare_weather_fs
                three_fires (pd_concat [bare_weather]) vegetation
                eq_refl eq_refl eq_refl eq_refl) as H.
  cbv zeta in H. destruct H as (Hweather & _ & files & Hrun & Hfiles & _).
  do 4 (split; [reflexivity|]). split; [exact Hweather|].
  exists files. split; assumption.
Defined.

(** [C7] (as stated) A weather snapshot without the temperature, humidity
    and wind speed columns does not abort the run: it returns true, and the
    file of San Francisco carries the defaults 70, 50 and 5. *)
Lemma bare_weather_run_completes :
  mem_string "TAVG" (columns bare_weather) = false
  /\ mem_string "RHAVG" (columns bare_weather) = false
  /\ mem_string "AWND" (columns bare_weather) = false
  /\ exists files,
       process_data_by_county star_match COUNTIES bare_weather_fs
       = Ok (true, files)
       /\ exists f flat,
            In f files
            /\ out_path f = "data/processed/sf_processed.csv"
            /\ out_records f = [flat]
            /\ dict_get "weather_temperature" flat = Some (VNum (Fin 70))
            /\ dict_get "weather_humidity" flat = Some (VNum (Fin 50))
            /\ dict_get "weather_windSpeed" flat = Some (VNum (Fin 5)).
Proof.
  do 3 (split; [reflexivity|]).
  eexists. split; [vm_compute; reflexivity|].
  eexists; eexists. split; [left; reflexivity|].
  repeat split.
Qed.

(** ** The columns of the files written *)

Lemma csv_columns_records (records : list (dict value)) :
  records <> [] ->
  Forall (fun r => dict_keys r = record_keys) records ->
  fold_left (fun acc r => add_columns acc (dict_keys r)) records []
  = record_keys.
Proof.
  destruct records as [|r records]; [contradiction|].
  intros _ Hkeys. inversion Hkeys as [|? ? Hr Hrest]; subst.
  cbn [fold_left]. rewrite Hr.
  change (add_columns [] record_keys) with record_keys.
  clear Hkeys Hr. induction records as [|r' records IH]; [reflexivity|].
  inversion Hrest as [|? ? Hr' Hrest']; subst.
  cbn [fold_left]. rewrite Hr'.
  change (add_columns record_keys record_keys) with record_keys.
  apply IH, Hrest'.
Qed.

(** [C9] (the code at work) In every run that writes its files for a
    non-empty county table, the per-county files have the flattened columns
    (the [weather_]-prefixed ones, no [weatherConditions]), while the
    combined file is built from the records as they were before flattening:
    its columns are those of the record, with the nested [weatherConditions]
    and without any [weather_]-prefixed column. *)
Theorem combined_file_not_flattened (fnmatch : string -> string -> bool)
    (registry : Registry) (fs : FileSystem) (files : list OutFile) :
  registry <> [] ->
  process_data_by_county fnmatch registry fs = Ok (true, files) ->
  exists per_county combined,
    files = per_county ++ [combined]
    /\ per_county <> []
    /\ out_path combined = combined_path
    /\ Forall (fun f => csv_columns f = flat_keys) per_county
    /\ csv_columns combined = record_keys
    /\ In "weatherConditions" (csv_columns combined)
    /\ ~ In "weather_temperature" (csv_columns combined)
    /\ ~ In "weather_humidity" (csv_columns combined)
    /\ ~ In "weather_windSpeed" (csv_columns combined)
    /\ ~ In "weather_windDirection" (csv_columns combined).
Proof.
  intros Hreg Hrun. apply run_output in Hrun.
  destruct Hrun as [[Hok _] | (_ & w & county_data & written & _ & -> & Hlen
                               & Hne & Hshape & Hwritten)];
    [discriminate Hok|].
  specialize (Hne Hreg).
  assert (Hcombined :
            csv_columns {| out_path := combined_path;
                           out_records := dict_values county_data |}
            = record_keys).
  { unfold csv_columns. cbn [out_records]. apply csv_columns_records.
    - destruct county_data; [contradiction | discriminate].
    - eapply Forall_impl; [|exact Hshape]. intros r [Hr _]. exact Hr. }
  eexists written, _. split; [reflexivity|].
  split; [destruct written, county_data; try discriminate; contradiction|].
  split; [reflexivity|].
  split.
  { eapply Forall_impl; [|exact Hwritten].
    intros f (flat & Hrec & Hkeys & _). unfold csv_columns.
    rewrite Hrec. cbn [fold_left]. rewrite Hkeys. reflexivity. }
  rewrite Hcombined. split; [reflexivity|].
  unfold record_keys. cbn [In].
  repeat split; try tauto; intuition discriminate.
Qed.

Lemma combined_file_not_flattened_witness :
  COUNTIES <> []
  /\ exists files,
       process_data_by_county star_match COUNTIES sample_fs = Ok (true, files)
       /\ exists per_county combined,
            files = per_county ++ [combined]
            /\ Forall (fun f => csv_columns f = flat_keys) per_county
            /\ csv_columns combined = record_keys.
Proof.
  assert (Hreg : COUNTIES <> []) by discriminate.
  split; [exact Hreg|].
  eexists. split; [vm_compute; reflexivity|].
  match goal with
  | |- exists per_county combined, ?files = _ /\ _ =>
      destruct (combined_file_not_flattened star_match COUNTIES sample_fs files
                  Hreg)
        as (per_county & combined & Hfiles & _ & _ & Hflat & Hrec & _)
  end.
  - vm_compute. reflexivity.
  - exists per_county, combined. repeat split; assumption.
Defined.

(** ** The persisted wind direction *)

(** [C10] In every per-county file of every run, the
    [weather_windDirection] column holds the constant "NW": the values
    written by two runs on any two file systems are the same, whatever the
    weather sources contain. *)
Theorem wind_direction_is_constant (fnmatch : string -> string -> bool)
    (registry : Registry) (fs1 fs2 : FileSystem) (ok1 ok2 : bool)
    (files1 files2 : list OutFile) :
  process_data_by_county fnmatch registry fs1 = Ok (ok1, files1) ->
  process_data_by_county fnmatch registry fs2 = Ok (ok2, files2) ->
  forall f1 flat1 f2 flat2,
    In f1 (per_county_files files1) -> In flat1 (out_records f1) ->
    In f2 (per_county_files files2) -> In flat2 (out_records f2) ->
    dict_get "weather_windDirection" flat1 = Some (VStr "NW")
    /\ dict_get "weather_windDirection" flat2
       = dict_get "weather_windDirection" flat1.
Proof.
  assert (Hone : forall fs ok files f flat,
             process_data_by_county fnmatch registry fs = Ok (ok, files) ->
             In f (per_county_files files) -> In flat (out_records f) ->
             dict_get "weather_windDirection" flat = Some (VStr "NW")).
  { intros fs ok files f flat Hrun Hf Hflat. apply run_output in Hrun.
    destruct Hrun as [[_ ->] | (_ & w & county_data & written & _ & -> & _ & _
                                & _ & Hwritten)]; [destruct Hf|].
    apply per_county_files_written in Hf; [|reflexivity].
    rewrite Forall_forall in Hwritten.
    destruct (Hwritten f Hf) as (flat' & Hrec & _ & _ & _ & _ & Hwind).
    rewrite Hrec in Hflat. destruct Hflat as [<- | []]. exact Hwind. }
  intros Hrun1 Hrun2 f1 flat1 f2 flat2 Hf1 Hflat1 Hf2 Hflat2.
  rewrite (Hone _ _ _ _ _ Hrun1 Hf1 Hflat1), (Hone _ _ _ _ _ Hrun2 Hf2 Hflat2).
  split; reflexivity.
Qed.

Lemma wind_direction_is_constant_witness :
  exists files1 files2 f1 flat1 f2 flat2,
    process_data_by_county star_match COUNTIES sample_fs = Ok (true, files1)
    /\ process_data_by_county star_match COUNTIES bare_weather_fs
       = Ok (true, files2)
    /\ In f1 (per_county_files files1) /\ In flat1 (out_records f1)
    /\ In f2 (per_county_files files2) /\ In flat2 (out_records f2)
    /\ dict_get "weather_temperature" flat1
       <> dict_get "weather_temperature" flat2
    /\ dict_get "weather_windDirection" flat1 = Some (VStr "NW")
    /\ dict_get "weather_windDirection" flat2
       = dict_get "weather_windDirection" flat1.
Proof.
  do 6 eexists.
  split; [vm_compute; reflexivity|]. split; [vm_compute; reflexivity|].
  split; [left; reflexivity|]. split; [left; reflexivity|].
  split; [left; reflexivity|]. split; [left; reflexivity|].
  split; [vm_compute; discriminate|].
  eapply (wind_direction_is_constant star_match COUNTIES sample_fs
            bare_weather_fs true true).
  - vm_compute; reflexivity.
  - vm_compute; reflexivity.
  - left; reflexivity.
  - left; reflexivity.
  - left; reflexivity.
  - left; reflexivity.
Defined.

(** * Further properties *)

(** ** The scoring model outside its nominal inputs *)

Open Scope Q_scope.

Lemma py_min_one (x : float) : exists q, py_min (Fin 1) x = Fin q.
Proof.
  destruct x as [a|]; [rewrite py_min_Fin | unfold py_min; cbn]; eauto.
Qed.

Lemma np_sum_nan (xs : list float) : fold_left fadd xs NaN = NaN.
Proof. induction xs as [|x xs IH]; cbn; [reflexivity | exact IH]. Qed.

Lemma weighted_sum_nan
    (recent_fires avg_frp temperature humidity wind_speed ndvi : float) :
  temperature = NaN \/ humidity = NaN \/ wind_speed = NaN \/ ndvi = NaN ->
  weighted_sum recent_fires avg_frp temperature humidity wind_speed ndvi = NaN.
Proof.
  intros H. unfold weighted_sum, normalized_factors.
  destruct (py_min_one (recent_fires / Fin 20)) as [f1 ->].
  destruct (py_min_one (avg_frp / Fin 1000)) as [f2 ->].
  unfold np_sum.
  destruct temperature, humidity, wind_speed, ndvi;
    cbn [weights np_mul fold_left fmul fadd fsub fdiv];
    rewrite ?np_sum_nan; try reflexivity.
  destruct H as [H | [H | [H | H]]]; discriminate H.
Qed.

Lemma score_of_nan
    (recent_fires avg_frp temperature humidity wind_speed ndvi : float) :
  temperature = NaN \/ humidity = NaN \/ wind_speed = NaN \/ ndvi = NaN ->
  calculate_suitability_score recent_fires avg_frp temperature humidity
    wind_speed ndvi = Fin 100.
Proof.
  intros H. unfold calculate_suitability_score.
  rewrite (weighted_sum_nan _ _ _ _ _ _ H). reflexivity.
Qed.

(** [X1] A temperature, humidity, wind speed or NDVI that is not a number
    does not make the score fail or come out as not-a-number: the weighted
    sum is not a number, [min(100, .)] and [max(0, .)] then give 100, the
    greatest suitability. *)
Theorem nan_input_scores_100
    (recent_fires avg_frp temperature humidity wind_speed ndvi : float) :
  temperature = NaN \/ humidity = NaN \/ wind_speed = NaN \/ ndvi = NaN ->
  weighted_sum recent_fires avg_frp temperature humidity wind_speed ndvi = NaN
  /\ calculate_suitability_score recent_fires avg_frp temperature humidity
       wind_speed ndvi = Fin 100.
Proof.
  intros H. split; [apply weighted_sum_nan | apply score_of_nan]; exact H.
Qed.

Lemma nan_input_scores_100_witness :
  calculate_suitability_score (Fin 10) (Fin 2) NaN (Fin 40) (Fin 8) (Fin 0.5)
  = Fin 100.
Proof.
  exact (proj2 (nan_input_scores_100 (Fin 10) (Fin 2) NaN (Fin 40) (Fin 8)
                  (Fin 0.5) (or_introl eq_refl))).
Defined.

(** [X2] A fire count or a mean FRP that is not a number counts as one at
    the cap: the score is that of 20 fires, respectively of an FRP of
    1000. *)
Theorem nan_fire_input_counts_as_capped
    (recent_fires avg_frp temperature humidity wind_speed ndvi : float) :
  calculate_suitability_score NaN avg_frp temperature humidity wind_speed ndvi
  = calculate_suitability_score (Fin 20) avg_frp temperature humidity
      wind_speed ndvi
  /\ calculate_suitability_score recent_fires NaN temperature humidity
       wind_speed ndvi
     = calculate_suitability_score recent_fires (Fin 1000) temperature
         humidity wind_speed ndvi.
Proof.
  unfold calculate_suitability_score, weighted_sum, normalized_factors.
  change (py_min (Fin 1) (NaN / Fin 20)) with (Fin 1).
  change (py_min (Fin 1) (NaN / Fin 1000)) with (Fin 1).
  change (py_min (Fin 1) (Fin 20 / Fin 20)) with (Fin 1).
  change (py_min (Fin 1) (Fin 1000 / Fin 1000)) with (Fin 1).
  split; reflexivity.
Qed.




(** [X4] Beyond the caps nothing changes: all fire counts of 20 or more give
    the suitability of 20 fires, and all mean FRP values of 1000 or more
    that of 1000. *)
Theorem capped_inputs_saturate (s : Summary) :
  (20 <= recentFireCount s ->
   feq (suitability_of s) (suitability_of (with_fires 20 s)))
  /\ (1000 <= meanFrp s ->
      feq (suitability_of s) (suitability_of (with_frp 1000 s))).
Proof.
  rewrite !suitability_of_Fin. cbn [feq].
  split; intros H; unfold clamp, raw_score, cap; cbn [with_fires with_frp
    recentFireCount meanFrp meanTemperature meanHumidity meanWindSpeed
    meanNdvi]; cbv zeta; qdiv; qcases; lra.
Qed.

Lemma capped_inputs_saturate_witness :
  feq (suitability_of (with_fires 10000 scenario))
      (suitability_of (with_fires 20 (with_fires 10000 scenario))).
Proof.
  destruct (capped_inputs_saturate (with_fires 10000 scenario)) as [H _].
  apply H. vm_compute. discriminate.
Defined.

(** ** The derived metrics of a county record *)

Lemma trunc_bounds (q : Q) (a b : Z) :
  (0 <= a)%Z -> inject_Z a <= q <= inject_Z b ->
  (a <= Z.quot (Qnum q) (Z.pos (Qden q)) <= b)%Z.
Proof.
  intros Ha [Hlo Hhi]. destruct q as [n d].
  assert (Hnum : (0 <= Qnum (n # d))%Z).
  { assert (Hq : 0 <= n # d) by (apply Qle_trans with (inject_Z a);
      [change 0 with (inject_Z 0); rewrite <- Zle_Qle; exact Ha | exact Hlo]).
    unfold Qle in Hq. cbn in Hq. cbn. lia. }
  cbn [Qnum Qden] in *. rewrite Z.quot_div_nonneg by lia.
  change (n / Z.pos d)%Z with (Qfloor (n # d)).
  rewrite <- (Qfloor_Z a), <- (Qfloor_Z b).
  split; apply Qfloor_resp_le; assumption.
Qed.

Lemma labels_of_score (x : Q) :
  labels_agree (risk_level (Fin x)) (risk_color (Fin x)) (hazard_level (Fin x))
  /\ (risk_level (Fin x) = "Low"%string <-> 80 < x)
  /\ (risk_level (Fin x) = "Moderate"%string <-> 60 < x <= 80)
  /\ (risk_level (Fin x) = "High"%string <-> x <= 60).
Proof.
  unfold labels_agree, risk_level, risk_color, hazard_level, flt.
  destruct (Qltb 80 x) eqn:E80; destruct (Qltb 60 x) eqn:E60;
    try apply Qltb_lt in E80; try apply Qltb_ge in E80;
    try apply Qltb_lt in E60; try apply Qltb_ge in E60;
    repeat split; try tauto; try discriminate; try lra; try (intros; lra);
    intros; exfalso; lra.
Qed.

(** [X5] Whatever the aggregates, a county record that is produced carries
    metrics within fixed ranges: score in 0..70, firmsScore in 50..100,
    historicalScore in 40..100, suitabilityScore in 0..100, and at least one
    fire per week in historicalAvg.  Its three labels go together
    (Low/green/Low, Moderate/yellow/Medium or High/red/High), and they follow
    the suitability before truncation, so that "Low" comes with a
    suitabilityScore of at least 80, "Moderate" with one in 60..80 and "High"
    with one of at most 60. *)
Theorem county_record_metrics (county_name : string) (county_info : CountyInfo)
    (recent_fires : Z) (avg_frp : float) (weather : dict value)
    (county_ndvi : float) (data : dict value) :
  score_county county_name county_info recent_fires avg_frp weather
    county_ndvi = Ok data ->
  exists score firms hist suit per_week level color hazard,
    dict_get "score" data = Some (VInt score)
    /\ dict_get "firmsScore" data = Some (VInt firms)
    /\ dict_get "historicalScore" data = Some (VInt hist)
    /\ dict_get "suitabilityScore" data = Some (VInt suit)
    /\ dict_get "historicalAvg" data
       = Some (VFmt [IntPiece per_week; Lit " fires/week"])
    /\ dict_get "riskLevel" data = Some (VStr level)
    /\ dict_get "riskColor" data = Some (VStr color)
    /\ dict_get "hazardProximity" data = Some (VStr hazard)
    /\ (0 <= score <= 70)%Z /\ (50 <= firms <= 100)%Z
    /\ (40 <= hist <= 100)%Z /\ (0 <= suit <= 100)%Z /\ (1 <= per_week)%Z
    /\ labels_agree level color hazard
    /\ (level = "Low"%string -> (80 <= suit)%Z)
    /\ (level = "Moderate"%string -> (60 <= suit <= 80)%Z)
    /\ (level = "High"%string -> (suit <= 60)%Z).
Proof.
  unfold score_county. intros H.
  apply bind_ok in H. destruct H as (temperature & _ & H).
  apply bind_ok in H. destruct H as (humidity & _ & H).
  apply bind_ok in H. destruct H as (windSpeed & _ & H).
  cbv zeta in H.
  destruct (score_is_number (of_int recent_fires) avg_frp temperature
              humidity windSpeed county_ndvi) as (x & Hx & Hrange).
  rewrite Hx in H. destruct avg_frp as [frp|]; [|discriminate H].
  cbn [fmul fsub py_int bind of_int] in H. injection H as <-.
  destruct (labels_of_score x) as (Hlabels & Hlow & Hmod & Hhigh).
  do 8 eexists. cbn [dict_get String.eqb Ascii.eqb Bool.eqb].
  do 8 (split; [reflexivity|]).
  assert (Hsuit : (0 <= Z.quot (Qnum x) (Z.pos (Qden x)) <= 100)%Z)
    by (apply (trunc_bounds x 0 100); [lia | unfold inject_Z; lra]).
  split; [apply (trunc_bounds (x * 0.7)%Q 0 70);
          [lia | unfold inject_Z; lra]|].
  split; [apply (trunc_bounds (100 - x * 0.5)%Q 50 100);
          [lia | unfold inject_Z; lra]|].
  split; [apply (trunc_bounds (100 - x * 0.6)%Q 40 100);
          [lia | unfold inject_Z; lra]|].
  split; [exact Hsuit|]. split; [lia|]. split; [exact Hlabels|].
  split; [|split].
  - intros Hl. apply Hlow in Hl.
    apply (trunc_bounds x 80 100); [lia | unfold inject_Z; lra].
  - intros Hl. apply Hmod in Hl.
    apply (trunc_bounds x 60 80); [lia | unfold inject_Z; lra].
  - intros Hl. apply Hhigh in Hl.
    apply (trunc_bounds x 0 60); [lia | unfold inject_Z; lra].
Qed.

Lemma county_record_metrics_witness :
  exists data,
    score_county "San Francisco" san_francisco 10 (Fin 2)
      (weather_of scenario) (Fin 0.5) = Ok data
    /\ dict_get "score" data = Some (VInt 31)
    /\ dict_get "suitabilityScore" data = Some (VInt 44).
Proof.
  eexists. split; [vm_compute; reflexivity|].
  match goal with
  | |- dict_get _ ?d = _ /\ _ =>
      pose proof (county_record_metrics "San Francisco" san_francisco 10
                    (Fin 2) (weather_of scenario) (Fin 0.5) d) as H
  end.
  destruct H as (score & firms & hist & suit & pw & lv & cl & hz & H);
    [vm_compute; reflexivity|].
  split; reflexivity.
Defined.

Close Scope Q_scope.

(** ** A weather column without numbers *)

Lemma mean_or_nan (df : DataFrame) (c : string) (default : Q) :
  column_without_numbers df c = true -> mean_or df c default = NaN.
Proof.
  unfold column_without_numbers, mean_or, series_mean.
  destruct (mem_string c (columns df)); [|discriminate].
  destruct (present _); [reflexivity | discriminate].
Qed.

(** [X6] When a column the pipeline reads is there but holds no number (a
    snapshot with a header and no record, say), its mean is not a number, no
    default stands in, and every county comes out as suitable as can be:
    suitabilityScore 100, score 70, firmsScore 50, historicalScore 40, risk
    level "Low", colour "green", hazard proximity "Low". *)
Theorem column_without_numbers_full_score
    (fire_df weather_df vegetation_df : DataFrame) (county_name : string)
    (county_info : CountyInfo) :
  fire_complete fire_df = true ->
  column_without_numbers weather_df "TAVG"
  || column_without_numbers weather_df "RHAVG"
  || column_without_numbers weather_df "AWND"
  || column_without_numbers vegetation_df "ndvi" = true ->
  exists data,
    process_county fire_df weather_df vegetation_df county_name county_info
    = Ok data
    /\ dict_get "suitabilityScore" data = Some (VInt 100)
    /\ dict_get "score" data = Some (VInt 70)
    /\ dict_get "firmsScore" data = Some (VInt 50)
    /\ dict_get "historicalScore" data = Some (VInt 40)
    /\ dict_get "riskLevel" data = Some (VStr "Low")
    /\ dict_get "riskColor" data = Some (VStr "green")
    /\ dict_get "hazardProximity" data = Some (VStr "Low").
Proof.
  unfold fire_complete. rewrite andb_true_iff, forallb_forall.
  intros [Hcols Hfin] Hnan. unfold process_county.
  rewrite (aggregate_fire_within _ _ Hcols). cbn [bind].
  destruct (frp_mean_fin fire_df (rows_within fire_df (bounds county_info)))
    as [q ->].
  { intros r Hr. apply Hfin. unfold rows_within in Hr.
    apply filter_In in Hr. apply Hr. }
  rewrite county_weather_ok, column_mean_or_ok. cbn [bind].
  unfold score_county.
  cbn [get_num weather_dict dict_get String.eqb Ascii.eqb Bool.eqb bind].
  rewrite score_of_nan.
  - cbn. eexists. split; [reflexivity|]. repeat split.
  - rewrite !orb_true_iff in Hnan.
    destruct Hnan as [[[H | H] | H] | H].
    + left. apply mean_or_nan, H.
    + right; left. apply mean_or_nan, H.
    + do 2 right; left. apply mean_or_nan, H.
    + do 3 right. apply mean_or_nan, H.
Qed.

Lemma column_without_numbers_full_score_witness :
  fire_complete three_fires = true
  /\ column_without_numbers header_only_weather "TAVG" = true
  /\ exists data,
       process_county three_fires header_only_weather vegetation
         "San Francisco" san_francisco = Ok data
       /\ dict_get "suitabilityScore" data = Some (VInt 100)
       /\ dict_get "riskLevel" data = Some (VStr "Low").
Proof.
  split; [reflexivity|]. split; [reflexivity|].
  destruct (column_without_numbers_full_score three_fires header_only_weather
              vegetation "San Francisco" san_francisco eq_refl eq_refl)
    as (data & Hrun & Hsuit & _ & _ & _ & Hlevel & _).
  exists data. repeat split; assumption.
Defined.

(** ** Errors while a county is processed *)

Lemma index_of_not_mem (c : string) (cols : list string) :
  mem_string c cols = false -> index_of c cols = None.
Proof.
  induction cols as [|c' cols IH]; cbn; [reflexivity|].
  destruct (c =? c'); [discriminate|]. cbn. intros H.
  rewrite (IH H). reflexivity.
Qed.





Example fire_without_frp_value_raises :
  process_county fire_without_frp_value header_only_weather vegetation
    "San Francisco" san_francisco = Raise ValueError.
Proof. reflexivity. Qed.

(** ** The outcome of a run *)

Lemma process_counties_outcome (fire_df weather_df vegetation_df : DataFrame)
    (counties : Registry) (acc : dict (dict value)) :
  match process_counties fire_df weather_df vegetation_df counties acc with
  | Ok _ =>
      Forall (county_processed fire_df weather_df vegetation_df) counties
  | Raise e =>
      exists before county_name county_info after,
        counties = before ++ (county_name, county_info) :: after
        /\ Forall (county_processed fire_df weather_df vegetation_df) before
        /\ process_county fire_df weather_df vegetation_df county_name
             county_info = Raise e
  end.
Proof.
  revert acc. induction counties as [|[county_name county_info] rest IH];
    intros acc; cbn [process_counties].
  - constructor.
  - destruct (process_county fire_df weather_df vegetation_df county_name
                county_info) as [data|e] eqn:Hdata; cbn [bind].
    + assert (Hhead : county_processed fire_df weather_df vegetation_df
                        (county_name, county_info))
        by (exists data; exact Hdata).
      specialize (IH (dict_set (county_id county_info) data acc)).
      destruct (process_counties fire_df weather_df vegetation_df rest _)
        as [county_data|e].
      * constructor; assumption.
      * destruct IH as (before & n & info & after & -> & Hbefore & Hfail).
        exists ((county_name, county_info) :: before), n, info, after.
        repeat split; [constructor; assumption | exact Hfail].
    + exists [], county_name, county_info, rest.
      repeat split; [constructor | exact Hdata].
Qed.

(** [X8] The three outcomes of a run.  It returns false, having written
    nothing, exactly when a source could not be loaded.  It raises, having
    written nothing either, exactly when the sources are loaded and some
    county fails: the exception is that of the first county of the table
    that fails, the counties before it having been processed in vain.  It
    returns true, with files written, exactly when the sources are loaded
    and every county is processed. *)
Theorem run_outcome (fnmatch : string -> string -> bool) (registry : Registry)
    (fs : FileSystem) :
  let loaded fire_df weather_df vegetation_df :=
    load_fire_data fnmatch fs = Some fire_df
    /\ load_weather_data fnmatch fs = Some weather_df
    /\ load_vegetation_data fnmatch fs = Some vegetation_df in
  match process_data_by_county fnmatch registry fs with
  | Ok (false, files) =>
      files = []
      /\ (load_fire_data fnmatch fs = None
          \/ load_weather_data fnmatch fs = None
          \/ load_vegetation_data fnmatch fs = None)
  | Ok (true, files) =>
      files <> []
      /\ exists fire_df weather_df vegetation_df,
           loaded fire_df weather_df vegetation_df
           /\ Forall (county_processed fire_df weather_df vegetation_df)
                registry
  | Raise e =>
      exists fire_df weather_df vegetation_df,
        loaded fire_df weather_df vegetation_df
        /\ exists before county_name county_info after,
             registry = before ++ (county_name, county_info) :: after
             /\ Forall (county_processed fire_df weather_df vegetation_df)
                  before
             /\ process_county fire_df weather_df vegetation_df county_name
                  county_info = Raise e
  end.
Proof.
  cbv zeta. unfold process_data_by_county.
  destruct (load_fire_data fnmatch fs) as [fire_df|]; [|auto].
  destruct (load_weather_data fnmatch fs) as [weather_df|]; [|auto].
  destruct (load_vegetation_data fnmatch fs) as [vegetation_df|]; [|auto].
  pose proof (process_counties_outcome fire_df weather_df vegetation_df
                registry []) as Hloop.
  destruct (process_counties fire_df weather_df vegetation_df registry [])
    as [county_data|e] eqn:Hrun; cbn [bind].
  - split.
    + assert (Hshape : Forall (record_with (weather_dict weather_df))
                         (dict_values county_data))
        by (apply (process_counties_shape _ _ _ _ _ _ Hrun); constructor).
      destruct (save_counties_shape weather_df county_data Hshape)
        as (written & Hsave & _).
      unfold save_processed_data. rewrite Hsave. cbn [fst].
      destruct written; discriminate.
    + exists fire_df, weather_df, vegetation_df. auto.
  - exists fire_df, weather_df, vegetation_df. auto.
Qed.

Example run_without_frp_value_raises :
  process_data_by_county star_match COUNTIES fire_without_frp_value_fs
  = Raise ValueError.
Proof. vm_compute. reflexivity. Qed.

(** ** The latest file, when creation times tie *)

Lemma max_by_key_first (key : File -> Q) (rest : list File) (best : File) :
  exists before after,
    best :: rest = before ++ max_by_key key best rest :: after
    /\ Forall (fun g => (key g < key (max_by_key key best rest))%Q) before
    /\ Forall (fun g => (key g <= key (max_by_key key best rest))%Q) after.
Proof.
  revert best. induction rest as [|f rest IH]; intros best.
  - exists [], []. cbn. repeat split; constructor.
  - cbn [max_by_key]. destruct (Qltb (key best) (key f)) eqn:E.
    + apply Qltb_lt in E.
      destruct (IH f) as (before & after & Heq & Hbefore & Hafter).
      exists (best :: before), after. rewrite Heq at 1.
      repeat split; [constructor|]; auto.
      pose proof (max_by_key_ge_best key rest f). lra.
    + apply Qltb_ge in E.
      destruct (IH best) as (before & after & Heq & Hbefore & Hafter).
      remember (max_by_key key best rest) as m eqn:Hm. clear Hm IH.
      destruct before as [|b before]; cbn in Heq; injection Heq as -> ->.
      * exists [], (f :: after).
        repeat split; constructor; assumption.
      * inversion Hbefore as [|? ? Hb Hbefore']; subst.
        exists (b :: f :: before), after.
        repeat split; [|exact Hafter].
        constructor; [exact Hb|]. constructor; [lra | exact Hbefore'].
Qed.

(** [X9] Among the matching files, [get_latest_file] takes the first one in
    listing order whose creation time is the greatest: every matching file
    listed before it is strictly older, every one listed after it is no
    younger.  A tie is settled by the order in which [glob] lists the
    files. *)
Theorem get_latest_file_first_of_latest (fnmatch : string -> string -> bool)
    (fs : FileSystem) (directory pattern : string) (f : File) :
  get_latest_file fnmatch fs directory pattern = Some f ->
  exists before after,
    glob fnmatch fs directory pattern = before ++ f :: after
    /\ Forall (fun g => (ctime g < ctime f)%Q) before
    /\ Forall (fun g => (ctime g <= ctime f)%Q) after.
Proof.
  unfold get_latest_file.
  destruct (glob fnmatch fs directory pattern) as [|f0 files];
    [discriminate|].
  intros [= <-]. apply max_by_key_first.
Qed.

Lemma get_latest_file_first_of_latest_witness :
  exists f before after,
    get_latest_file star_match tied_fs "data/fire" "california_fires_*.csv"
    = Some f
    /\ path f = "california_fires_b.csv"
    /\ glob star_match tied_fs "data/fire" "california_fires_*.csv"
       = before ++ f :: after
    /\ Forall (fun g => (ctime g < ctime f)%Q) before
    /\ Forall (fun g => (ctime g <= ctime f)%Q) after.
Proof.
  eexists.
  match goal with
  | |- exists before after, ?G = Some ?f /\ _ =>
      assert (Hget : G = Some f) by (vm_compute; reflexivity);
      destruct (get_latest_file_first_of_latest star_match tied_fs "data/fire"
                  "california_fires_*.csv" f Hget)
        as (before & after & Hglob & Hbefore & Hafter)
  end.
  exists before, after. repeat split; assumption.
Defined.

(** ** The weather files *)

Lemma read_all_some (files : list File) (dfs : list DataFrame) :
  read_all files = Some dfs <-> map content files = map Some dfs.
Proof.
  revert dfs. induction files as [|f files IH]; intros dfs; cbn.
  - split.
    + intros [= <-]. reflexivity.
    + destruct dfs; [reflexivity | discriminate].
  - destruct (content f) as [df|].
    + destruct (read_all files) as [dfs'|].
      * split.
        -- intros [= <-]. cbn. f_equal. apply IH. reflexivity.
        -- destruct dfs as [|d dfs]; [discriminate|]. cbn.
           intros [= -> H]. apply IH in H. injection H as ->. reflexivity.
      * split; [discriminate|].
        destruct dfs as [|d dfs]; [discriminate|]. cbn.
        intros [= -> H]. apply IH in H. discriminate H.
    + split; [discriminate|]. destruct dfs; discriminate.
Qed.

Lemma read_all_none (files : list File) :
  read_all files = None <-> exists f, In f files /\ content f = None.
Proof.
  induction files as [|f files IH]; cbn.
  - split; [discriminate | intros (f & [] & _)].
  - destruct (content f) as [df|] eqn:Hf.
    + destruct (read_all files) as [dfs|].
      * split; [discriminate|]. intros (g & [<- | Hg] & Hnone).
        -- congruence.
        -- assert (H : @None (list DataFrame) = None) by reflexivity.
           destruct IH as [_ IH]. discriminate IH. eauto.
      * split; [|reflexivity]. intros _.
        destruct IH as [IH _]. destruct (IH eq_refl) as (g & Hg & Hnone).
        eauto.
    + split; [|reflexivity]. intros _. exists f. auto.
Qed.

(** [X10] The weather files are loaded all or none: the loader gives a
    frame exactly when at least one file matches and every matching file can
    be read, and the frame is then the concatenation of all of them in
    listing order; a single unreadable file, or no file, gives nothing (and
    the run aborts). *)
Theorem load_weather_data_all_or_nothing (fnmatch : string -> string -> bool)
    (fs : FileSystem) :
  let weather_files := glob fnmatch fs "data/weather" "*.csv" in
  match load_weather_data fnmatch fs with
  | Some weather_df =>
      weather_files <> []
      /\ exists dfs,
           map content weather_files = map Some dfs
           /\ weather_df = pd_concat dfs
  | None =>
      weather_files = []
      \/ exists f, In f weather_files /\ content f = None
  end.
Proof.
  cbv zeta. unfold load_weather_data.
  destruct (glob fnmatch fs "data/weather" "*.csv") as [|f files] eqn:Hglob;
    [left; reflexivity|].
  destruct (read_all (f :: files)) as [dfs|] eqn:Hread.
  - pose proof Hread as Hmap. apply read_all_some in Hmap.
    destruct dfs as [|df dfs]; [discriminate Hmap|].
    split; [discriminate|]. exists (df :: dfs). auto.
  - right. apply read_all_none. exact Hread.
Qed.

(** ** Concatenation of frames *)

Lemma mem_string_app (c : string) (l1 l2 : list string) :
  mem_string c (l1 ++ l2) = mem_string c l1 || mem_string c l2.
Proof.
  induction l1 as [|x l1 IH]; cbn; [reflexivity|].
  rewrite IH. apply orb_assoc.
Qed.

Lemma mem_add_columns (c : string) (cols acc : list string) :
  mem_string c (add_columns acc cols) = mem_string c acc || mem_string c cols.
Proof.
  unfold add_columns. revert acc.
  induction cols as [|x cols IH]; intros acc; cbn [fold_left mem_string].
  - rewrite orb_false_r. reflexivity.
  - rewrite IH. destruct (mem_string x acc) eqn:Hx.
    + destruct (c =? x) eqn:Hc; [|reflexivity].
      apply String.eqb_eq in Hc. subst. rewrite Hx. reflexivity.
    + rewrite mem_string_app. cbn [mem_string]. rewrite orb_false_r.
      symmetry. apply orb_assoc.
Qed.

Lemma mem_fold_columns (c : string) (dfs : list DataFrame)
    (acc : list string) :
  mem_string c (fold_left (fun a df => add_columns a (columns df)) dfs acc)
  = mem_string c acc || existsb (fun df => mem_string c (columns df)) dfs.
Proof.
  revert acc. induction dfs as [|df dfs IH]; intros acc; cbn [fold_left existsb].
  - rewrite orb_false_r. reflexivity.
  - rewrite IH, mem_add_columns. symmetry. apply orb_assoc.
Qed.

Lemma cell_reindexed (cols cs : list string) (c : string) (r : list float) :
  cell cols c (map (fun c' => cell cs c' r) cols)
  = if mem_string c cols then cell cs c r else NaN.
Proof.
  unfold cell at 1. induction cols as [|x cols IH]; cbn; [reflexivity|].
  destruct (c =? x) eqn:Hc.
  - apply String.eqb_eq in Hc. subst. reflexivity.
  - cbn [orb]. destruct (index_of c cols) as [i|]; exact IH.
Qed.

Lemma cell_absent (cs : list string) (c : string) (r : list float) :
  mem_string c cs = false -> cell cs c r = NaN.
Proof.
  intros H. unfold cell. rewrite (index_of_not_mem _ _ H). reflexivity.
Qed.

Lemma existsb_absent (c : string) (dfs : list DataFrame) (df : DataFrame) :
  existsb (fun df => mem_string c (columns df)) dfs = false ->
  In df dfs -> mem_string c (columns df) = false.
Proof.
  intros H Hin. destruct (mem_string c (columns df)) eqn:Hc; [|reflexivity].
  rewrite <- H. symmetry. apply existsb_exists. eauto.
Qed.

Lemma pd_concat_cells (dfs : list DataFrame) (c : string) :
  map (cell (columns (pd_concat dfs)) c) (rows (pd_concat dfs))
  = pooled_cells dfs c.
Proof.
  unfold pd_concat, pooled_cells. cbn [columns rows].
  assert (Hmem : mem_string c (union_columns dfs)
                 = existsb (fun df => mem_string c (columns df)) dfs)
    by (unfold union_columns; rewrite mem_fold_columns; reflexivity).
  generalize dependent (union_columns dfs). intros cols Hmem.
  assert (Hall : forall df, In df dfs ->
            map (cell cols c) (reindex cols df)
            = map (cell (columns df) c) (rows df)).
  { intros df Hdf. unfold reindex. rewrite map_map. apply map_ext.
    intros r. rewrite cell_reindexed, Hmem.
    destruct (existsb _ dfs) eqn:He; [reflexivity|].
    rewrite (cell_absent (columns df)); [reflexivity|].
    apply (existsb_absent c dfs df He Hdf). }
  clear Hmem. induction dfs as [|df dfs IH]; [reflexivity|].
  cbn [flat_map]. rewrite map_app, Hall by (left; reflexivity).
  f_equal. apply IH. intros d Hd. apply Hall. right. exact Hd.
Qed.

(** [X11] Several weather files count as one table: a column is there as
    soon as one file has it, and its mean is taken over the records of all
    files together, each record weighing the same and the records of files
    without the column being left out.  The default stands in only when no
    file has the column. *)
Theorem weather_files_are_pooled (dfs : list DataFrame) (c : string)
    (default : Q) :
  mem_string c (columns (pd_concat dfs))
  = existsb (fun df => mem_string c (columns df)) dfs
  /\ List.length (rows (pd_concat dfs))
     = list_sum (map (fun df => List.length (rows df)) dfs)
  /\ column_mean_or (pd_concat dfs) c default
     = Ok (if existsb (fun df => mem_string c (columns df)) dfs
           then match present (pooled_cells dfs c) with
                | [] => NaN
                | qs => Fin (Qmean qs)
                end
           else Fin default).
Proof.
  assert (Hmem : mem_string c (columns (pd_concat dfs))
                 = existsb (fun df => mem_string c (columns df)) dfs)
    by (unfold pd_concat, union_columns; cbn [columns];
        rewrite mem_fold_columns; reflexivity).
  split; [exact Hmem|]. split.
  - clear Hmem. unfold pd_concat. cbn [rows].
    generalize (union_columns dfs). intros cols.
    induction dfs as [|df dfs IH]; [reflexivity|].
    cbn [flat_map map list_sum]. rewrite length_app, IH.
    unfold reindex. rewrite length_map. reflexivity.
  - rewrite column_mean_or_ok. unfold mean_or, series_mean.
    rewrite Hmem, pd_concat_cells. reflexivity.
Qed.

Example two_stations_pooled :
  column_mean_or (pd_concat two_station_files) "TAVG" 70
    = Ok (Fin (Qmean [60%Q; 70%Q]))
  /\ column_mean_or (pd_concat two_station_files) "RHAVG" 50
     = Ok (Fin (Qmean [30%Q; 40%Q; 50%Q]))
  /\ column_mean_or (pd_concat two_station_files) "PRCP" 0
     = Ok (Fin 0).
Proof. repeat split. Qed.

(** ** The table shipped with the code *)

Lemma counties_do_not_overlap (lat lon : float) :
  (containing COUNTIES lat lon <= 1)%nat.
Proof.
  unfold containing, COUNTIES. cbn [filter snd].
  destruct (within _ lat lon) eqn:Hsf; destruct (within _ lat lon) eqn:Hla
    in |- *; cbn [List.length]; try lia.
  exfalso. apply within_inside in Hsf, Hla.
  unfold inside in Hsf, Hla. destruct lat as [la|], lon as [lo|]; try tauto.
  cbn in Hsf, Hla. lra.
Qed.

(** [X12] With the county table of the code, whose two rectangles do not
    meet, the fire points counted for a county are exactly those that
    [assign_to_county] gives to it, for every fire snapshot: the count is the
    number of points assigned to the county and the mean FRP is taken over
    them. *)
Theorem shipped_table_counts_assigned_points (fire_df : DataFrame)
    (county_name : string) (county_info : CountyInfo) :
  has_fire_columns fire_df = true ->
  In (county_name, county_info) COUNTIES ->
  let assigned := rows_assigned COUNTIES fire_df (county_id county_info) in
  aggregate_fire fire_df (bounds county_info)
  = Ok (Z.of_nat (List.length assigned), frp_mean fire_df assigned).
Proof.
  intros Hcols Hin. cbv zeta.
  rewrite (aggregate_fire_within _ _ Hcols).
  assert (Hrows : rows_within fire_df (bounds county_info)
                  = rows_assigned COUNTIES fire_df (county_id county_info)).
  { unfold rows_within, rows_assigned. apply filter_ext_in. intros r _.
    apply (within_iff_assigned COUNTIES _ _ county_name);
      [reflexivity | apply counties_do_not_overlap | exact Hin]. }
  rewrite Hrows. reflexivity.
Qed.

Lemma shipped_table_counts_assigned_points_witness :
  has_fire_columns three_fires = true
  /\ In ("Los Angeles", los_angeles) COUNTIES
  /\ rows_assigned COUNTIES three_fires "la"
     = [ [Fin 34%Q; Fin (-118.2)%Q; Fin 30%Q] ]
  /\ aggregate_fire three_fires (bounds los_angeles)
     = Ok (1%Z, Fin (Qmean [30%Q])).
Proof.
  assert (Hin : In ("Los Angeles", los_angeles) COUNTIES)
    by (right; left; reflexivity).
  pose proof (shipped_table_counts_assigned_points three_fires "Los Angeles"
                los_angeles eq_refl Hin) as H.
  cbv zeta in H.
  split; [reflexivity|]. split; [exact Hin|]. split; [reflexivity|].
  exact H.
Defined.

(** ** The files of a run *)

Lemma score_county_id (county_name : string) (county_info : CountyInfo)
    (recent_fires : Z) (avg_frp : float) (w : dict value) (county_ndvi : float)
    (data : dict value) :
  score_county county_name county_info recent_fires avg_frp w county_ndvi
  = Ok data ->
  dict_get "id" data = Some (VStr (county_id county_info)).
Proof.
  unfold score_county. intros H.
  repeat (apply bind_ok in H; destruct H as (? & _ & H)).
  injection H as <-. reflexivity.
Qed.

Lemma process_county_id (fire_df weather_df vegetation_df : DataFrame)
    (county_name : string) (county_info : CountyInfo) (data : dict value) :
  process_county fire_df weather_df vegetation_df county_name county_info
  = Ok data ->
  dict_get "id" data = Some (VStr (county_id county_info)).
Proof.
  unfold process_county. intros H.
  apply bind_ok in H. destruct H as ([recent_fires avg_frp] & _ & H).
  apply bind_ok in H. destruct H as (w & _ & H).
  apply bind_ok in H. destruct H as (ndvi & _ & H).
  apply score_county_id in H. exact H.
Qed.

Lemma dict_set_items {V : Type} (P : string * V -> Prop) (k : string) (v : V)
    (d : dict V) :
  P (k, v) -> Forall P d -> Forall P (dict_set k v d).
Proof.
  intros Hv. induction d as [|[k' v'] d IH]; cbn; intros Hd.
  - constructor; [exact Hv | constructor].
  - inversion Hd as [|? ? Hv' Hd']; subst.
    destruct (k =? k'); constructor; auto.
Qed.

Lemma dict_set_keys {V : Type} (k : string) (v : V) (d : dict V) :
  dict_keys (dict_set k v d)
  = if mem_string k (dict_keys d) then dict_keys d else dict_keys d ++ [k].
Proof.
  induction d as [|[k' v'] d IH]; cbn; [reflexivity|].
  destruct (k =? k') eqn:Hk; cbn.
  - apply String.eqb_eq in Hk. subst. reflexivity.
  - unfold dict_keys in IH. rewrite IH.
    destruct (mem_string k (map fst d)); reflexivity.
Qed.

Lemma process_counties_keys (fire_df weather_df vegetation_df : DataFrame)
    (counties : Registry) (acc county_data : dict (dict value)) :
  process_counties fire_df weather_df vegetation_df counties acc
  = Ok county_data ->
  dict_keys county_data
  = add_columns (dict_keys acc) (map (fun e => county_id (snd e)) counties).
Proof.
  revert acc. induction counties as [|[county_name county_info] rest IH];
    intros acc; cbn [process_counties].
  - intros [= <-]. reflexivity.
  - intros H. apply bind_ok in H. destruct H as (data & _ & H).
    rewrite (IH _ H), dict_set_keys. reflexivity.
Qed.

Lemma process_counties_ids (fire_df weather_df vegetation_df : DataFrame)
    (counties : Registry) (acc county_data : dict (dict value)) :
  process_counties fire_df weather_df vegetation_df counties acc
  = Ok county_data ->
  Forall (fun item => dict_get "id" (snd item) = Some (VStr (fst item))) acc ->
  Forall (fun item => dict_get "id" (snd item) = Some (VStr (fst item)))
    county_data.
Proof.
  revert acc. induction counties as [|[county_name county_info] rest IH];
    intros acc; cbn [process_counties].
  - intros [= <-] Hacc. exact Hacc.
  - intros H Hacc. apply bind_ok in H. destruct H as (data & Hdata & H).
    apply (IH _ H). apply dict_set_items; [|exact Hacc].
    apply (process_county_id _ _ _ _ _ _ Hdata).
Qed.

Lemma flatten_shared (w_df : DataFrame) (data : dict value) :
  record_with (weather_dict w_df) data ->
  exists flat,
    flatten data = Some flat
    /\ dict_keys flat = flat_keys
    /\ Forall (fun k => dict_get k flat = dict_get k data) shared_keys
    /\ dict_get "weatherConditions" flat = None
    /\ dict_get "weather_temperature" flat
       = dict_get "temperature" (weather_dict w_df)
    /\ dict_get "weather_humidity" flat
       = dict_get "humidity" (weather_dict w_df)
    /\ dict_get "weather_windSpeed" flat
       = dict_get "windSpeed" (weather_dict w_df)
    /\ dict_get "weather_windDirection" flat
       = dict_get "windDirection" (weather_dict w_df).
Proof.
  intros [Hkeys Hweather]. unfold dict_keys, record_keys in Hkeys.
  repeat (destruct data as [|[? ?] data];
          [discriminate Hkeys|];
          cbn [map fst] in Hkeys; injection Hkeys as -> Hkeys).
  destruct data; [|discriminate Hkeys].
  cbn in Hweather. injection Hweather as ->.
  eexists. split; [reflexivity|]. split; [reflexivity|].
  split; [repeat constructor|]. repeat split.
Qed.

Lemma save_counties_files (weather_df : DataFrame)
    (items : dict (dict value)) :
  Forall (record_with (weather_dict weather_df)) (dict_values items) ->
  Forall (fun item => dict_get "id" (snd item) = Some (VStr (fst item)))
    items ->
  exists written,
    save_counties items = (written, true)
    /\ Forall2 file_of_entry items written.
Proof.
  induction items as [|[id data] items IH]; cbn; intros Hitems Hids.
  - exists []. split; [reflexivity | constructor].
  - inversion Hitems as [|? ? Hdata Hrest]; subst.
    inversion Hids as [|? ? Hid Hids']; subst.
    destruct (flatten_shared weather_df data Hdata)
      as (flat & -> & Hkeys & Hshared & Hnone & Ht & Hh & Hs & Hd).
    destruct (IH Hrest Hids') as (written & -> & Hwritten).
    eexists. split; [reflexivity|]. constructor; [|exact Hwritten].
    split; [reflexivity|]. split; [exact Hid|].
    exists flat, (weather_dict weather_df).
    destruct Hdata as [_ Hw]. repeat split; assumption.
Qed.

Lemma run_files (fnmatch : string -> string -> bool) (registry : Registry)
    (fs : FileSystem) (files : list OutFile) :
  process_data_by_county fnmatch registry fs = Ok (true, files) ->
  exists county_data written,
    files = written ++ [ {| out_path := combined_path;
                            out_records := dict_values county_data |} ]
    /\ dict_keys county_data
       = distinct_in_order (map (fun e => county_id (snd e)) registry)
    /\ Forall2 file_of_entry county_data written.
Proof.
  unfold process_data_by_county.
  destruct (load_fire_data fnmatch fs) as [fire_df|]; [|discriminate].
  destruct (load_weather_data fnmatch fs) as [weather_df|]; [|discriminate].
  destruct (load_vegetation_data fnmatch fs) as [vegetation_df|];
    [|discriminate].
  intros H. apply bind_ok in H. destruct H as (county_data & Hloop & H).
  injection H as <-.
  assert (Hshape : Forall (record_with (weather_dict weather_df))
                     (dict_values county_data))
    by (apply (process_counties_shape _ _ _ _ _ _ Hloop); constructor).
  assert (Hids : Forall (fun item => dict_get "id" (snd item)
                                     = Some (VStr (fst item))) county_data)
    by (apply (process_counties_ids _ _ _ _ _ _ Hloop); constructor).
  destruct (save_counties_files weather_df county_data Hshape Hids)
    as (written & Hsave & Hwritten).
  exists county_data, written.
  unfold save_processed_data. rewrite Hsave. cbn [fst].
  split; [reflexivity|]. split; [|exact Hwritten].
  apply (process_counties_keys _ _ _ _ _ _ Hloop).
Qed.

(** [X13] In a run that writes, the per-county files and the records of the
    combined file go by pairs, in the same order: the file of a county is
    named after the [id] of its record, it holds one row, the row agrees with
    the record on the sixteen columns they share, and its four
    [weather_]-prefixed columns hold the entries of the record's nested
    [weatherConditions], which the row itself no longer has. *)
Theorem per_county_files_match_combined (fnmatch : string -> string -> bool)
    (registry : Registry) (fs : FileSystem) (files : list OutFile) :
  process_data_by_county fnmatch registry fs = Ok (true, files) ->
  exists county_data per_county combined,
    files = per_county ++ [combined]
    /\ out_path combined = combined_path
    /\ out_records combined = dict_values county_data
    /\ Forall2 file_of_entry county_data per_county.
Proof.
  intros Hrun. destruct (run_files _ _ _ _ Hrun)
    as (county_data & written & -> & _ & Hwritten).
  exists county_data, written. eexists.
  split; [reflexivity|]. repeat split. exact Hwritten.
Qed.

Lemma map_paths (county_data : dict (dict value)) (written : list OutFile) :
  Forall2 file_of_entry county_data written ->
  map out_path written = map processed_path (dict_keys county_data).
Proof.
  induction 1 as [|item f items fs [Hpath _] _ IH]; cbn; [reflexivity|].
  rewrite Hpath, IH. reflexivity.
Qed.

(** [X14] The files of a run that writes: one file
    [data/processed/<id>_processed.csv] for each distinct county identifier
    of the table, in order of first appearance, and then
    [data/processed/all_counties.csv].  Counties that share an identifier
    share one file and one row of the combined file. *)
Theorem files_written (fnmatch : string -> string -> bool)
    (registry : Registry) (fs : FileSystem) (files : list OutFile) :
  process_data_by_county fnmatch registry fs = Ok (true, files) ->
  let ids := distinct_in_order (map (fun e => county_id (snd e)) registry) in
  map out_path files = map processed_path ids ++ [combined_path]
  /\ exists per_county combined,
       files = per_county ++ [combined]
       /\ List.length per_county = List.length ids
       /\ List.length (out_records combined) = List.length ids.
Proof.
  intros Hrun. cbv zeta. destruct (run_files _ _ _ _ Hrun)
    as (county_data & written & -> & Hkeys & Hwritten).
  rewrite map_app, (map_paths _ _ Hwritten), Hkeys. split; [reflexivity|].
  eexists written, _. split; [reflexivity|].
  rewrite <- Hkeys. unfold dict_keys, dict_values. cbn [out_records].
  rewrite !length_map. split; [|reflexivity].
  symmetry. apply (Forall2_length Hwritten).
Qed.

Lemma files_written_witness :
  exists files,
    process_data_by_county star_match repeated_id sample_fs = Ok (true, files)
    /\ map out_path files
       = [ "data/processed/sf_processed.csv";
           "data/processed/la_processed.csv";
           "data/processed/all_counties.csv" ].
Proof.
  eexists.
  match goal with
  | |- ?R = Ok (true, ?files) /\ _ =>
      assert (Hrun : R = Ok (true, files)) by (vm_compute; reflexivity);
      destruct (files_written star_match repeated_id sample_fs files Hrun)
        as [Hpaths _]
  end.
  split; [exact Hrun | exact Hpaths].
Defined.

Lemma per_county_files_match_combined_witness :
  exists files county_data per_county combined,
    process_data_by_county star_match COUNTIES sample_fs = Ok (true, files)
    /\ files = per_county ++ [combined]
    /\ out_records combined = dict_values county_data
    /\ Forall2 file_of_entry county_data per_county.
Proof.
  eexists.
  match goal with
  | |- exists county_data per_county combined,
         ?R = Ok (true, ?files) /\ _ =>
      assert (Hrun : R = Ok (true, files)) by (vm_compute; reflexivity);
      destruct (per_county_files_match_combined star_match COUNTIES sample_fs
                  files Hrun)
        as (county_data & per_county & combined & Hfiles & _ & Hrec & Hall)
  end.
  exists county_data, per_county, combined. repeat split; assumption.
Defined.

(** ** Reading the per-county files back *)

Lemma append_length (a b : string) :
  String.length (a ++ b)%string = (String.length a + String.length b)%nat.
Proof. induction a as [|c a IH]; cbn; [|rewrite IH]; reflexivity. Qed.

Lemma append_inj_r (a b s : string) : (a ++ s = b ++ s)%string -> a = b.
Proof.
  revert b. induction a as [|c a IH]; intros [|c' b] H; cbn in H.
  - reflexivity.
  - apply (f_equal String.length) in H. cbn in H. rewrite append_length in H.
    lia.
  - apply (f_equal String.length) in H. cbn in H. rewrite append_length in H.
    lia.
  - injection H as -> H. f_equal. apply IH, H.
Qed.

Lemma processed_path_inj (id1 id2 : string) :
  processed_path id1 = processed_path id2 -> id1 = id2.
Proof.
  unfold processed_path. intros H. cbn in H.
  repeat (injection H as H). apply append_inj_r in H. exact H.
Qed.

Lemma processed_path_not_combined (id : string) :
  processed_path id <> combined_path.
Proof.
  unfold processed_path, combined_path. intros H. cbn in H.
  repeat (injection H as H).
  destruct id as [|a [|b [|c id]]]; cbn in H.
  - discriminate H.
  - injection H as _ H. discriminate H.
  - injection H as _ _ H. discriminate H.
  - apply (f_equal String.length) in H. cbn in H. rewrite append_length in H.
    cbn in H. lia.
Qed.

Lemma dict_get_set {V : Type} (k k' : string) (v : V) (d : dict V) :
  dict_get k' (dict_set k v d)
  = if k' =? k then Some v else dict_get k' d.
Proof.
  induction d as [|[k0 v0] d IH]; cbn.
  - destruct (k' =? k); reflexivity.
  - destruct (k =? k0) eqn:Hk; cbn.
    + apply String.eqb_eq in Hk. subst.
      destruct (k' =? k0); reflexivity.
    + rewrite IH. destruct (k' =? k0) eqn:Hk0; [|reflexivity].
      apply String.eqb_eq in Hk0. subst.
      rewrite String.eqb_sym, Hk. reflexivity.
Qed.

Lemma write_files_last (files : list OutFile) (f : OutFile) (dir : Directory)
    (p : string) :
  dict_get p (write_files (files ++ [f]) dir)
  = if p =? out_path f then Some (out_records f)
    else dict_get p (write_files files dir).
Proof.
  unfold write_files. rewrite fold_left_app. cbn [fold_left].
  apply dict_get_set.
Qed.

Lemma write_files_lookup (files : list OutFile) (dir : Directory)
    (p : string) :
  dict_get p (write_files files dir)
  = match find (fun f => p =? out_path f) (rev files) with
    | Some f => Some (out_records f)
    | None => dict_get p dir
    end.
Proof.
  induction files as [|f files IH] using rev_ind; [reflexivity|].
  rewrite write_files_last, rev_app_distr. cbn [rev app find].
  destruct (p =? out_path f); [reflexivity | exact IH].
Qed.

Lemma Forall2_in_l {A B : Type} (R : A -> B -> Prop) (l1 : list A)
    (l2 : list B) (x : A) :
  Forall2 R l1 l2 -> In x l1 -> exists y, In y l2 /\ R x y.
Proof.
  induction 1 as [|a b l1 l2 Hab _ IH]; intros Hin; [destruct Hin|].
  destruct Hin as [<- | Hin].
  - exists b. split; [left; reflexivity | exact Hab].
  - destruct (IH Hin) as (y & Hy & Hxy). exists y. split; [right|]; assumption.
Qed.

Lemma Forall2_in_r {A B : Type} (R : A -> B -> Prop) (l1 : list A)
    (l2 : list B) (y : B) :
  Forall2 R l1 l2 -> In y l2 -> exists x, In x l1 /\ R x y.
Proof.
  induction 1 as [|a b l1 l2 Hab _ IH]; intros Hin; [destruct Hin|].
  destruct Hin as [<- | Hin].
  - exists a. split; [left; reflexivity | exact Hab].
  - destruct (IH Hin) as (x & Hx & Hxy). exists x. split; [right|]; assumption.
Qed.

Lemma write_files_entry (county_data : dict (dict value))
    (written : list OutFile) (dir : Directory) (id : string) :
  Forall2 file_of_entry county_data written ->
  mem_string id (dict_keys county_data) = true ->
  exists item f,
    file_of_entry item f /\ fst item = id
    /\ dict_get (processed_path id) (write_files written dir)
       = Some (out_records f).
Proof.
  intros Hall Hid. apply mem_string_In in Hid. unfold dict_keys in Hid.
  apply in_map_iff in Hid. destruct Hid as (item0 & Hfst & Hitem0).
  destruct (Forall2_in_l _ _ _ _ Hall Hitem0) as (f0 & Hf0 & Hentry0).
  rewrite write_files_lookup.
  destruct (find (fun f => processed_path id =? out_path f) (rev written))
    as [f|] eqn:Hfind.
  - apply find_some in Hfind. destruct Hfind as [Hf Hpath].
    apply in_rev in Hf. apply String.eqb_eq in Hpath.
    destruct (Forall2_in_r _ _ _ _ Hall Hf) as (item & _ & Hentry).
    exists item, f. split; [exact Hentry|]. split; [|reflexivity].
    destruct Hentry as [Hp _]. rewrite Hp in Hpath.
    apply processed_path_inj in Hpath. symmetry. exact Hpath.
  - exfalso. apply in_rev in Hf0.
    pose proof (find_none _ _ Hfind f0 Hf0) as Hno. cbv beta in Hno.
    destruct Hentry0 as [Hp _].
    rewrite Hp, Hfst, String.eqb_refl in Hno. discriminate Hno.
Qed.

Lemma dict_mem_keys {V : Type} (k : string) (d : dict V) :
  dict_mem k d = mem_string k (dict_keys d).
Proof.
  unfold dict_mem. induction d as [|[k' v] d IH]; cbn; [reflexivity|].
  destruct (k =? k'); [reflexivity | exact IH].
Qed.

Lemma dict_get_tabulate (f : string -> value) (cols : list string)
    (k : string) :
  dict_get k (map (fun c => (c, f c)) cols)
  = if mem_string k cols then Some (f k) else None.
Proof.
  induction cols as [|c cols IH]; cbn; [reflexivity|].
  destruct (k =? c) eqn:Hk; [|exact IH].
  apply String.eqb_eq in Hk. subst. reflexivity.
Qed.

Lemma first_row_of_flat (flat : dict value) :
  dict_keys flat = flat_keys ->
  exists county_data,
    first_row_dict [flat] = Some county_data
    /\ dict_keys county_data = flat_keys
    /\ forall k, dict_get k county_data = dict_get k flat.
Proof.
  intros Hkeys. unfold first_row_dict. cbn [fold_left]. rewrite Hkeys.
  change (add_columns [] flat_keys) with flat_keys.
  eexists. split; [reflexivity|]. split.
  - unfold dict_keys. rewrite map_map. cbn [fst]. apply map_id.
  - intros k. rewrite dict_get_tabulate. unfold get_or.
    pose proof (dict_mem_keys k flat) as Hmem. rewrite Hkeys in Hmem.
    unfold dict_mem in Hmem.
    destruct (dict_get k flat); rewrite <- Hmem; reflexivity.
Qed.

(** [X15] The files of a run are what the assessment script reads: for
    every county of the table, [load_county_data] finds the county's file
    among the files written (whatever the directory held before), and gets
    the row of that county; the row has every key that the prompt of
    [generate_burn_assessment] is built from, so that none of the defaults of
    its [get] calls is used, and the wind direction of the prompt is
    "NW". *)
Theorem assessment_reads_county_file (fnmatch : string -> string -> bool)
    (registry : Registry) (fs : FileSystem) (files : list OutFile)
    (dir : Directory) (county_name : string) (county_info : CountyInfo) :
  process_data_by_county fnmatch registry fs = Ok (true, files) ->
  In (county_name, county_info) registry ->
  exists county_data,
    load_county_data (write_files files dir) (county_id county_info)
    = Some county_data
    /\ dict_get "id" county_data = Some (VStr (county_id county_info))
    /\ Forall (fun k => dict_mem k county_data = true) prompt_keys
    /\ p_wind_direction (prompt_data county_data) = VStr "NW".
Proof.
  intros Hrun Hin. destruct (run_files _ _ _ _ Hrun)
    as (all_data & written & -> & Hkeys & Hwritten).
  assert (Hid : mem_string (county_id county_info) (dict_keys all_data)
                = true).
  { rewrite Hkeys. unfold distinct_in_order. rewrite mem_add_columns.
    apply mem_string_In.
    apply (in_map (fun e => county_id (snd e)) _ _ Hin). }
  destruct (write_files_entry all_data written dir _ Hwritten Hid)
    as (item & f & Hentry & Hfst & Hget).
  unfold load_county_data. rewrite write_files_last.
  cbn [out_path].
  destruct (processed_path (county_id county_info) =? combined_path) eqn:Hp.
  { apply String.eqb_eq in Hp. apply processed_path_not_combined in Hp.
    destruct Hp. }
  rewrite Hget.
  destruct Hentry as (_ & Hitem & flat & w & -> & Hflat & Hshared & _ & _
                      & _ & _ & _ & Hwind & Hnw).
  destruct (first_row_of_flat flat Hflat) as (county_data & -> & Hck & Hcg).
  exists county_data. split; [reflexivity|]. split; [|split].
  - rewrite Hcg. apply Forall_inv in Hshared. rewrite Hshared, Hitem, Hfst.
    reflexivity.
  - apply Forall_forall. intros k Hk. rewrite dict_mem_keys, Hck.
    apply mem_string_In.
    unfold prompt_keys in Hk. unfold flat_keys. cbn [In] in *.
    intuition (subst; auto 30).
  - unfold prompt_data, p_wind_direction, get_or.
    rewrite Hcg, Hwind, Hnw. reflexivity.
Qed.

Lemma assessment_reads_county_file_witness :
  exists files county_data,
    process_data_by_county star_match COUNTIES sample_fs = Ok (true, files)
    /\ In ("Los Angeles", los_angeles) COUNTIES
    /\ load_county_data (write_files files []) "la" = Some county_data
    /\ dict_get "id" county_data = Some (VStr "la")
    /\ p_wind_direction (prompt_data county_data) = VStr "NW".
Proof.
  eexists.
  match goal with
  | |- exists county_data, ?R = Ok (true, ?files) /\ _ =>
      assert (Hrun : R = Ok (true, files)) by (vm_compute; reflexivity);
      assert (Hin : In ("Los Angeles", los_angeles) COUNTIES)
        by (right; left; reflexivity);
      destruct (assessment_reads_county_file star_match COUNTIES sample_fs
                  files [] "Los Angeles" los_angeles Hrun Hin)
        as (county_data & Hload & Hid & _ & Hwind)
  end.
  exists county_data. repeat split; assumption.
Defined.

(** ** One weather for all counties *)

(** [X16] The weather and vegetation snapshots are not split by county:
    within a run, the weather columns of all per-county files are the same,
    namely the means (or defaults) over the whole weather source. *)
Theorem weather_same_for_all_counties (fnmatch : string -> string -> bool)
    (registry : Registry) (fs : FileSystem) (ok : bool)
    (files : list OutFile) :
  process_data_by_county fnmatch registry fs = Ok (ok, files) ->
  forall f1 row1 f2 row2,
    In f1 (per_county_files files) -> In row1 (out_records f1) ->
    In f2 (per_county_files files) -> In row2 (out_records f2) ->
    dict_get "weather_temperature" row1 = dict_get "weather_temperature" row2
    /\ dict_get "weather_humidity" row1 = dict_get "weather_humidity" row2
    /\ dict_get "weather_windSpeed" row1 = dict_get "weather_windSpeed" row2
    /\ exists weather_df,
         load_weather_data fnmatch fs = Some weather_df
         /\ dict_get "weather_temperature" row1
            = Some (VNum (mean_or weather_df "TAVG" 70))
         /\ dict_get "weather_humidity" row1
            = Some (VNum (mean_or weather_df "RHAVG" 50))
         /\ dict_get "weather_windSpeed" row1
            = Some (VNum (mean_or weather_df "AWND" 5)).
Proof.
  intros Hrun f1 row1 f2 row2 Hf1 Hrow1 Hf2 Hrow2.
  apply run_output in Hrun.
  destruct Hrun as [[_ ->] | (_ & weather_df & county_data & written & Hw & ->
                              & _ & _ & _ & Hwritten)]; [destruct Hf1|].
  apply per_county_files_written in Hf1; [|reflexivity].
  apply per_county_files_written in Hf2; [|reflexivity].
  rewrite Forall_forall in Hwritten.
  destruct (Hwritten f1 Hf1) as (flat1 & Hrec1 & _ & Ht1 & Hh1 & Hs1 & _).
  destruct (Hwritten f2 Hf2) as (flat2 & Hrec2 & _ & Ht2 & Hh2 & Hs2 & _).
  rewrite Hrec1 in Hrow1. destruct Hrow1 as [<- | []].
  rewrite Hrec2 in Hrow2. destruct Hrow2 as [<- | []].
  rewrite Ht1, Ht2, Hh1, Hh2, Hs1, Hs2.
  repeat split. exists weather_df. repeat split. exact Hw.
Qed.

Lemma weather_same_for_all_counties_witness :
  exists files f1 row1 f2 row2,
    process_data_by_county star_match COUNTIES sample_fs = Ok (true, files)
    /\ In f1 (per_county_files files) /\ In row1 (out_records f1)
    /\ In f2 (per_county_files files) /\ In row2 (out_records f2)
    /\ dict_get "id" row1 = Some (VStr "sf")
    /\ dict_get "id" row2 = Some (VStr "la")
    /\ dict_get "weather_temperature" row1
       = dict_get "weather_temperature" row2.
Proof.
  do 5 eexists.
  split; [vm_compute; reflexivity|].
  split; [left; reflexivity|]. split; [left; reflexivity|].
  split; [right; left; reflexivity|]. split; [left; reflexivity|].
  split; [reflexivity|]. split; [reflexivity|].
  eapply (weather_same_for_all_counties star_match COUNTIES sample_fs true).
  - vm_compute; reflexivity.
  - left; reflexivity.
  - left; reflexivity.
  - right; left; reflexivity.
  - left; reflexivity.
Defined.

(** ** The pipeline runner *)





(** ** The latest file by name *)

Lemma ascii_compare_refl (a : ascii) : Ascii.compare a a = Eq.
Proof. unfold Ascii.compare. apply N.compare_refl. Qed.

Lemma ascii_compare_lt_trans (a b c : ascii) :
  Ascii.compare a b = Lt -> Ascii.compare b c = Lt -> Ascii.compare a c = Lt.
Proof.
  unfold Ascii.compare. rewrite !N.compare_lt_iff. apply N.lt_trans.
Qed.

Lemma string_leb_trans (a b c : string) :
  String.leb a b = true -> String.leb b c = true -> String.leb a c = true.
Proof.
  unfold String.leb. revert b c.
  induction a as [|x a IH]; intros [|y b] [|z c]; cbn; try congruence.
  destruct (Ascii.compare x y) eqn:Hxy; destruct (Ascii.compare y z) eqn:Hyz;
    try congruence.
  - apply Ascii.compare_eq_iff in Hxy, Hyz. subst.
    rewrite ascii_compare_refl. apply IH.
  - apply Ascii.compare_eq_iff in Hxy. subst. rewrite Hyz. congruence.
  - apply Ascii.compare_eq_iff in Hyz. subst. rewrite Hxy. congruence.
  - rewrite (ascii_compare_lt_trans _ _ _ Hxy Hyz). congruence.
Qed.

Lemma string_leb_refl (a : string) : String.leb a a = true.
Proof.
  unfold String.leb. induction a as [|x a IH]; cbn; [reflexivity|].
  rewrite ascii_compare_refl. exact IH.
Qed.

Lemma string_ltb_leb (a b : string) :
  String.ltb a b = true -> String.leb a b = true.
Proof. unfold String.ltb, String.leb. destruct (a ?= b)%string; congruence. Qed.

Lemma string_not_ltb (a b : string) :
  String.ltb a b = false -> String.leb b a = true.
Proof.
  unfold String.ltb, String.leb. rewrite (String.compare_antisym b a).
  destruct (a ?= b)%string; cbn; congruence.
Qed.

Lemma latest_name_fold (keep : string -> bool) (names : list string)
    (start : option string) :
  keeps_greatest keep names start
    (fold_left
       (fun kept file =>
          if keep file then
            match kept with
            | None => Some file
            | Some k => if String.ltb k file then Some file else Some k
            end
          else kept)
       names start).
Proof.
  revert start. induction names as [|file names IH]; intros start.
  - cbn. destruct start as [s|]; cbn.
    + split; [left; reflexivity|]. split; [|intros n []].
      intros s' [= <-]. apply string_leb_refl.
    + split; [reflexivity | intros n []].
  - cbn [fold_left].
    set (next := if keep file then _ else start).
    specialize (IH next). unfold keeps_greatest in *.
    destruct (fold_left _ names next) as [r|].
    + destruct IH as (Hfrom & Hstart & Hall).
      assert (Hnext : forall s, start = Some s -> String.leb s r = true).
      { intros s ->. subst next. destruct (keep file).
        - destruct (String.ltb s file) eqn:Hlt.
          + apply string_leb_trans with file;
              [apply string_ltb_leb, Hlt | apply Hstart; reflexivity].
          + apply Hstart. reflexivity.
        - apply Hstart. reflexivity. }
      assert (Hfile : keep file = true -> String.leb file r = true).
      { intros Hk. subst next. rewrite Hk in *. destruct start as [s|].
        - destruct (String.ltb s file) eqn:Hlt.
          + apply Hstart. reflexivity.
          + apply string_leb_trans with s;
              [apply string_not_ltb, Hlt | apply Hstart; reflexivity].
        - apply Hstart. reflexivity. }
      split; [|split].
      * destruct Hfrom as [Hfrom | [Hin Hk]]; [|right; split; [right|]; auto].
        subst next. destruct (keep file) eqn:Hk; [|left; exact Hfrom].
        destruct start as [s|].
        -- destruct (String.ltb s file).
           ++ injection Hfrom as <-. right. split; [left; reflexivity | exact Hk].
           ++ left. exact Hfrom.
        -- injection Hfrom as <-. right. split; [left; reflexivity | exact Hk].
      * exact Hnext.
      * intros n [<- | Hn] Hk; [apply Hfile, Hk | apply Hall; assumption].
    + destruct IH as [Hnone Hall]. subst next.
      destruct (keep file) eqn:Hk.
      * destruct start as [s|]; [destruct (String.ltb s file)|];
          discriminate Hnone.
      * split; [exact Hnone|]. intros n [<- | Hn]; [exact Hk | apply Hall, Hn].
Qed.

(** [X18] The API loaders pick their file by name: among the names of the
    directory that pass the filter they keep the greatest in the order of
    strings, and nothing when no name passes.  The choice does not depend on
    the order in which the directory is listed (unlike [get_latest_file],
    which goes by creation time and listing order). *)
Theorem latest_name_is_greatest (keep : string -> bool)
    (names : list string) :
  match latest_name keep names with
  | None => forall n, In n names -> keep n = false
  | Some r =>
      In r names /\ keep r = true
      /\ forall n, In n names -> keep n = true -> String.leb n r = true
  end
  /\ forall names',
       (forall n, In n names <-> In n names') ->
       latest_name keep names' = latest_name keep names.
Proof.
  assert (Hspec : forall l,
             match latest_name keep l with
             | None => forall n, In n l -> keep n = false
             | Some r =>
                 In r l /\ keep r = true
                 /\ forall n, In n l -> keep n = true -> String.leb n r = true
             end).
  { intros l. pose proof (latest_name_fold keep l None) as H.
    unfold latest_name, keeps_greatest in *.
    destruct (fold_left _ l None) as [r|].
    - destruct H as ([H | [Hin Hk]] & _ & Hall); [discriminate H|]. auto.
    - apply H. }
  split; [apply Hspec|].
  intros names' Hsame. pose proof (Hspec names) as H. pose proof (Hspec names') as H'.
  destruct (latest_name keep names) as [r|], (latest_name keep names') as [r'|].
  - destruct H as (Hin & Hk & Hall), H' as (Hin' & Hk' & Hall').
    f_equal. apply String.leb_antisym.
    + apply Hall; [apply Hsame|]; assumption.
    + apply Hall'; [apply Hsame|]; assumption.
  - destruct H as (Hin & Hk & _). apply Hsame in Hin.
    rewrite (H' r Hin) in Hk. discriminate Hk.
  - destruct H' as (Hin' & Hk' & _). apply Hsame in Hin'.
    rewrite (H r' Hin') in Hk'. discriminate Hk'.
  - reflexivity.
Qed.

Example latest_assessment_by_name :
  latest_name (is_assessment_of "sf")
    [ "la_assessment.json"; "sf_assessment.json"; "sf_assessment.json.bak";
      "sf_2025_assessment.json" ]
  = Some "sf_assessment.json"
  /\ latest_name is_combined_csv
       [ "sf_processed.csv"; "la_processed.csv"; "all_counties.csv" ]
     = None.
Proof. split; reflexivity. Qed.
